(** * grash: path classification and the build pipeline

    A shallow embedding of the class [GrashSite] of [grash/grash.py].
    Python [str] values are [string]s, the configuration lists are
    [list string], the file system is a finite map from path to content,
    and the methods that touch the file system are computations that
    read the world and return a value or an exception together with the
    events they performed. *)

From Stdlib Require Import Strings.String Strings.Ascii Lists.List Bool.Bool.
From stdpp Require Import base option list strings gmap.

Local Open Scope string_scope.
Local Open Scope list_scope.

(** ** Python [str] methods *)

Module Str.

(** [s.startswith(p)] *)
Fixpoint startswith (s p : string) {struct p} : bool :=
  match p with
  | EmptyString => true
  | String b p' =>
      match s with
      | EmptyString => false
      | String a s' => Ascii.eqb a b && startswith s' p'
      end
  end.

(** [s.endswith(p)] *)
Fixpoint endswith (s p : string) : bool :=
  String.eqb s p ||
  match s with
  | EmptyString => false
  | String _ s' => endswith s' p
  end.

(** [s.split(sep)] for a one-character separator: the pieces between
    the separators, empty pieces kept, never an empty list. *)
Fixpoint split (sep : ascii) (s : string) : list string :=
  match s with
  | EmptyString => [EmptyString]
  | String c s' =>
      if Ascii.eqb c sep then EmptyString :: split sep s'
      else match split sep s' with
           | piece :: rest => String c piece :: rest
           | [] => [String c EmptyString]
           end
  end.

(** [s[n:]] *)
Fixpoint drop (n : nat) (s : string) : string :=
  match n, s with
  | O, _ => s
  | S n', String _ s' => drop n' s'
  | S _, EmptyString => EmptyString
  end.

(** [c in s] for a character *)
Fixpoint contains (c : ascii) (s : string) : bool :=
  match s with
  | EmptyString => false
  | String a s' => Ascii.eqb a c || contains c s'
  end.

End Str.

(** ** [os.path] on a POSIX system *)

Module Posix.

(** [os.path.sep] *)
Definition sep : ascii := "/"%char.

(** [os.path.join(a, b)] (posixpath): an absolute [b] replaces [a]. *)
Definition join (a b : string) : string :=
  if Str.startswith b "/" then b
  else if String.eqb a "" || Str.endswith a "/" then a +:+ b
  else a +:+ "/" +:+ b.

(** The text after the last separator ([os.path.basename]), computed
    together with the text before it. *)
Fixpoint rsplit_sep (s : string) : option string * string :=
  match s with
  | EmptyString => (None, EmptyString)
  | String c s' =>
      match rsplit_sep s' with
      | (Some h, t) => (Some (String c h), t)
      | (None, t) =>
          if Ascii.eqb c sep then (Some EmptyString, t)
          else (None, String c t)
      end
  end.

(** [os.path.basename(p)] *)
Definition basename (p : string) : string := snd (rsplit_sep p).

(** [s.rstrip('/')] *)
Fixpoint rstrip_sep (s : string) : string :=
  match s with
  | EmptyString => EmptyString
  | String c s' =>
      match rstrip_sep s' with
      | EmptyString => if Ascii.eqb c sep then EmptyString else String c EmptyString
      | r => String c r
      end
  end.

(** [os.path.dirname(p)]: the head up to the last separator, its
    trailing separators stripped unless it consists of separators. *)
Definition dirname (p : string) : string :=
  match fst (rsplit_sep p) with
  | None => ""
  | Some h =>
      let head := h +:+ "/" in
      match rstrip_sep head with
      | EmptyString => head
      | stripped => stripped
      end
  end.

(** The directories [mkdir(parents=True)] makes sure of: every prefix of
    the path that ends before a separator, and the path itself. *)
Fixpoint parents_from (seen rest : string) : list string :=
  match rest with
  | EmptyString => [seen]
  | String c rest' =>
      if Ascii.eqb c sep
      then seen :: parents_from (seen +:+ "/") rest'
      else parents_from (seen +:+ String c EmptyString) rest'
  end.

Definition parents (p : string) : list string :=
  List.filter (fun d => negb (String.eqb d "")) (parents_from "" p).

End Posix.

(** ** [pathlib.PurePath] names *)

Module Pathlib.

(** [name.rfind('.')] *)
Fixpoint rfind_dot (s : string) : option nat :=
  match s with
  | EmptyString => None
  | String c s' =>
      match rfind_dot s' with
      | Some i => Some (S i)
      | None => if Ascii.eqb c "." then Some 0%nat else None
      end
  end.

(** [PurePath.name]: the last component. *)
Definition name (filepath : string) : string := Posix.basename filepath.

(** [PurePath.suffix]: from the last dot on, unless that dot is the
    first or the last character of the name. *)
Definition suffix (filepath : string) : string :=
  let n := name filepath in
  match rfind_dot n with
  | Some i =>
      if Nat.ltb 0 i && Nat.ltb i (String.length n - 1)%nat then Str.drop i n else ""
  | None => ""
  end.

(** [filepath.with_suffix('').name] *)
Definition with_suffix_empty_name (filepath : string) : string :=
  let n := name filepath in
  String.substring 0 (String.length n - String.length (suffix filepath))%nat n.

End Pathlib.

(** ** The site object *)

(** The attributes [GrashSite.__init__] stores, less the Jinja environment
    and the logger, which are collaborators (see [Collaborators] below).
    [staticDirs] and [pandocDirs] are the documented lists of strings; a
    [None] passed by the command line is falsy like the empty list. *)
Record GrashSite := {
  encoding : string;
  buildDir : string;
  staticDirs : list string;
  templatePath : string;
  pandocDirs : list string;
  pandocTypes : list string;
  verbose : bool
}.

(** ** Typisation: the classification predicates *)

Section Typisation.

Variable self : GrashSite.

(** [isStatic]: the loop body returns on both branches, so only the
    first configured directory is ever looked at, and the test is
    [dirpath.startswith(dirname)]. *)
Definition isStatic (dirname : string) : bool :=
  match staticDirs self with
  | [] => false
  | dirpath :: _ =>
      if Str.startswith dirpath dirname then true else false
  end.

(** [isPandoc]: the same code over [pandocDirs]. *)
Definition isPandoc (dirname : string) : bool :=
  match pandocDirs self with
  | [] => false
  | dirpath :: _ =>
      if Str.startswith dirpath dirname then true else false
  end.

(** [isModule]: some piece of [path.split(os.path.sep)] starts with
    an underscore. *)
Definition isModule (path : string) : bool :=
  existsb (fun route => Str.startswith route "_") (Str.split Posix.sep path).

(** [isPrivate]: some piece starts with a dot. *)
Definition isPrivate (path : string) : bool :=
  existsb (fun route => Str.startswith route ".") (Str.split Posix.sep path).

(** [isTemplate] *)
Definition isTemplate (path : string) : bool :=
  if isModule path || isPrivate path || isStatic path || isPandoc path
  then false
  else true.

End Typisation.

(** ** Categories

    The source has no category type: a path's category is read off the
    predicates.  [Category] and [classify] restate the specification's
    first-match rule over the source's predicates, so that statements
    about categories can be compared with [isTemplate]. *)

Inductive Category := Page | Module_ | Static | Document | Private_.

Definition classify (self : GrashSite) (path : string) : Category :=
  if isModule path then Module_
  else if isPrivate path then Private_
  else if isStatic self path then Static
  else if isPandoc self path then Document
  else Page.

(** A path has a segment starting with [c] when [c] is its first
    character or follows a separator. *)
Definition has_segment_starting (c : ascii) (path : string) : Prop :=
  exists before after : string,
    path = before +:+ String c after /\
    (before = "" \/ exists before', before = before' +:+ "/").

(** The containment test of the specification: [path] lies under one of
    the prefixes when it starts with that prefix. *)
Definition lies_under (prefixes : list string) (path : string) : bool :=
  existsb (fun prefix => Str.startswith path prefix) prefixes.

(** ** The file system, effects and exceptions *)

(** Regular files by path, and the directories the build has made sure
    of.  Paths are compared as written. *)
Record World := {
  files : gmap string string;
  dirs : gset string
}.

(** What a build does to the world, in program order. *)
Inductive Event :=
| EMkdir (path : string)
| EWrite (path content : string)
| EDump (path content : string)
| ECopy (source destination content : string)
| EPrint (line : string).

(** The exceptions the modelled code can raise. *)
Inductive Exn :=
| AssertionError (msg : string)
| AttributeError (msg : string)
| TemplateNotFound (name : string)
| FileNotFoundError (path : string)
| ConverterError (msg : string)
| TemplateError (msg : string).

Definition apply_event (w : World) (e : Event) : World :=
  match e with
  | EMkdir p =>
      {| files := files w; dirs := list_to_set (Posix.parents p) ∪ dirs w |}
  | EWrite p c => {| files := <[p:=c]> (files w); dirs := dirs w |}
  | EDump p c => {| files := <[p:=c]> (files w); dirs := dirs w |}
  | ECopy _ d c => {| files := <[d:=c]> (files w); dirs := dirs w |}
  | EPrint _ => w
  end.

Definition replay (log : list Event) (w : World) : World :=
  fold_left apply_event log w.

(** A computation reads the world it starts in and returns a value or an
    exception together with the events it performed; what follows it
    runs in the world those events leave. *)
Definition M (A : Type) : Type := World -> (Exn + A) * list Event.

Definition ret {A} (a : A) : M A := fun _ => (inr a, []).

Definition raise {A} (e : Exn) : M A := fun _ => (inl e, []).

Definition bind {A B} (m : M A) (f : A -> M B) : M B :=
  fun w =>
    match m w with
    | (inl e, log) => (inl e, log)
    | (inr a, log) =>
        let '(r, log') := f a (replay log w) in (r, log ++ log')
    end.

Definition gets {A} (f : World -> A) : M A := fun w => (inr (f w), []).

Definition emit (e : Event) : M unit := fun _ => (inr tt, [e]).

Declare Scope grash_scope.
Delimit Scope grash_scope with grash.
Notation "x <- m ;; k" := (bind m (fun x => k))
  (at level 100, m at next level, right associativity) : grash_scope.
Notation "m ;;; k" := (bind m (fun _ => k))
  (at level 100, right associativity) : grash_scope.
Local Open Scope grash_scope.

(** [for x in xs: body(x)] *)
Fixpoint for_each {A} (xs : list A) (body : A -> M unit) : M unit :=
  match xs with
  | [] => ret tt
  | x :: xs' => body x ;;; for_each xs' body
  end.

(** The result and the log of a run, and the world it leaves. *)
Definition result {A} (m : M A) (w : World) : Exn + A := fst (m w).
Definition log_of {A} (m : M A) (w : World) : list Event := snd (m w).
Definition world_after {A} (m : M A) (w : World) : World := replay (log_of m w) w.

(** ** Collaborators

    The document converter, the template engine and the process's
    working directory are not code of this program. *)
Class Collaborators := {
  (** [os.getcwd()] *)
  getcwd : string;
  (** [pypandoc.convert(text, "html", format=docType)] *)
  pandoc_convert : string -> string -> Exn + string;
  (** [template.stream()] for the template [name] of a loader rooted at
      [searchpath] whose files are [tree]: the text it yields and the
      exception that ends it, if any. *)
  jinja_stream : string -> gmap string string -> string -> string * option Exn
}.

(** A [jinja2.Template], as far as the program looks at it. *)
Record Template := { template_name : string }.

(** Iterables of templates: a generator runs its producer when it is
    first advanced and each item when it is reached. *)
Definition Iterable (A : Type) : Type := M (list (M A)).

(** What [getDependencies] returns: templates, or file names. *)
Inductive Dependencies :=
| DepTemplates (ts : Iterable Template)
| DepFilenames (fs : list string).

(** A bound method is an object, and truthy. *)
Definition bound_method_truth : bool := true.

(** ** Reading the file system *)

(** [os.path.isfile(path)] *)
Definition isfile (path : string) (w : World) : bool :=
  bool_decide (is_Some (files w !! path)).

(** [open(path, 'r').read()] *)
Definition read_file (path : string) : M string :=
  fun w =>
    match files w !! path with
    | Some text => (inr text, [])
    | None => (inl (FileNotFoundError path), [])
    end.

(** A path lies in the tree below [root] when it starts with [root]
    followed by a separator. *)
Definition is_under (root path : string) : bool :=
  Str.startswith path (Posix.join root "").

(** The files in the tree below [root]. *)
Definition tree (root : string) (fs : gmap string string) : gmap string string :=
  filter (fun kv : string * string => is_under root kv.1 = true) fs.

(** [pathlib.Path(source).glob('*.' + docType)]: the files directly in
    [source] whose name ends with a dot and [docType]. *)
Definition glob_match (source docType path : string) : bool :=
  is_under source path &&
  (let name := Str.drop (String.length (Posix.join source "")) path in
   negb (Str.contains "/" name) && Str.endswith name ("." +:+ docType)).

Definition glob (source docType : string) (w : World) : list string :=
  (map_to_list
     (filter (fun kv : string * string => glob_match source docType kv.1 = true)
             (files w))).*1.

(** The name the loader gives the file at [path] below [searchpath],
    and the file it loads for a name. *)
Definition loader_name (searchpath path : string) : string :=
  Str.drop (String.length (Posix.join searchpath "")) path.

Definition loader_path (searchpath name : string) : string :=
  Posix.join searchpath "" +:+ name.

(** [Environment.list_templates(filter_func=f)]: the names of the files
    below the search path that [f] accepts. *)
Definition list_templates (searchpath : string) (filter_func : string -> bool)
    (w : World) : list string :=
  List.filter filter_func
    (List.map (loader_name searchpath) (map_to_list (tree searchpath (files w))).*1).

(** ** The methods of [GrashSite] that build *)

Section Build.

Context `{Collaborators}.
Variable self : GrashSite.

(** [_ensureParent] *)
Definition _ensureParent (filename : string) : M unit :=
  let parent := Posix.dirname filename in
  if negb (String.eqb parent "")
  then
    let dirpath := Posix.join (buildDir self) parent in
    emit (EMkdir dirpath)
  else ret tt.

(** [getTemplate]: the loader raises when it has no file for the name. *)
Definition getTemplate (templateName : string) : M Template :=
  found <- gets (isfile (loader_path (templatePath self) templateName)) ;;
  if found then ret {| template_name := templateName |}
  else raise (TemplateNotFound templateName).

(** [templateNames] *)
Definition templateNames : M (list string) :=
  gets (list_templates (templatePath self) (isTemplate self)).

(** [templates], a generator *)
Definition templates : Iterable Template :=
  names <- templateNames ;;
  ret (List.map getTemplate names).

(** [staticFiles] *)
Definition staticFiles : M (list string) :=
  gets (list_templates (templatePath self) (isStatic self)).

(** [getDependencies]: the last test reads [self.isPandoc] without
    calling it. *)
Definition getDependencies (filename : string) : M Dependencies :=
  if isModule filename then ret (DepTemplates templates)
  else if isTemplate self filename then
    t <- getTemplate filename ;;
    ret (DepTemplates (ret [ret t]))
  else if isStatic self filename || bound_method_truth then
    ret (DepFilenames [filename])
  else ret (DepFilenames []).

(** [self.buildPath]: no such attribute is ever set. *)
Definition buildPath : M string :=
  raise (AttributeError "'GrashSite' object has no attribute 'buildPath'").

(** [shutil.copy2(source, destination)] *)
Definition copy2 (source destination : string) : M unit :=
  content <- read_file source ;;
  emit (ECopy source destination content).

(** [copyStatic] *)
Definition copyStatic (paths : list string) (verbose : bool) : M unit :=
  for_each paths (fun path =>
    let source := Posix.join getcwd path in
    base <- buildPath ;;
    let destination := Posix.join base path in
    (if verbose
     then emit (EPrint ("Copying " +:+ path +:+ " to " +:+ destination +:+ "..."))
     else ret tt) ;;;
    _ensureParent path ;;;
    copy2 source destination).

(** [_platify] *)
Definition _platify (text template : string) : string :=
  let quote := String "034"%char EmptyString in
  let newline := String "010"%char EmptyString in
  let prefix :=
    "{% extends " +:+ quote +:+ template +:+ quote +:+ " %}" +:+ newline
    +:+ "{% block body %}" in
  let suffix := "{% endblock %}" in
  prefix +:+ newline +:+ text +:+ newline +:+ suffix.

(** [renderDoc] *)
Definition renderDoc (docType path : string) (prettyLink verbose : bool) : M unit :=
  let source := Posix.join getcwd path in
  let destination := Posix.join (templatePath self) path in
  docfilepaths <- gets (glob source docType) ;;
  let docTemplate := "_" +:+ Posix.basename path +:+ ".html" in
  let templatePath' := Posix.join (templatePath self) docTemplate in
  found <- gets (isfile templatePath') ;;
  if negb found then
    raise (AssertionError
             ("No template " +:+ templatePath' +:+ " has been found, aborting."))
  else
    for_each docfilepaths (fun filepath =>
      text <- read_file filepath ;;
      match pandoc_convert text docType with
      | inl e => raise e
      | inr htmltext =>
          let htmltext := _platify htmltext docTemplate in
          if prettyLink then
            let pagedir :=
              Posix.join destination (Pathlib.with_suffix_empty_name filepath) in
            let newFilepath := Posix.join pagedir "index.html" in
            emit (EMkdir pagedir) ;;;
            emit (EWrite newFilepath htmltext)
          else
            let newFilepath := Posix.join destination (Pathlib.name filepath) in
            emit (EWrite newFilepath htmltext)
      end).

(** [renderDocs]: [prettyLink] and [verbose] are accepted and [True] is
    passed on for both. *)
Definition renderDocs (docType : string) (dirpaths : list string)
    (prettyLink verbose : bool) : M unit :=
  for_each dirpaths (fun path => renderDoc docType path true true).

(** [renderTemplate]: the stream is dumped to the file as far as it
    gets. *)
Definition renderTemplate (template : Template) : M unit :=
  _ensureParent (template_name template) ;;;
  let filepath := Posix.join (buildDir self) (template_name template) in
  out <- gets (fun w =>
           jinja_stream (templatePath self) (tree (templatePath self) (files w))
                        (template_name template)) ;;
  emit (EDump filepath (fst out)) ;;;
  match snd out with
  | Some e => raise e
  | None => ret tt
  end.

(** [renderTemplates] *)
Definition renderTemplates (templates : Iterable Template) : M unit :=
  items <- templates ;;
  for_each items (fun item =>
    template <- item ;;
    renderTemplate template).

(** The three stages of [render]. *)
Definition document_stage (prettyLink : bool) : M unit :=
  for_each (pandocTypes self) (fun docType =>
    renderDocs docType (pandocDirs self) prettyLink true).

Definition page_stage : M unit := renderTemplates templates.

Definition static_stage : M unit :=
  paths <- staticFiles ;;
  copyStatic paths (verbose self).

(** [render] with [reloader=False]; with [reloader=True] the method goes
    on to [Watcher.watch], which is not part of the build. *)
Definition render (prettyLink : bool) : M unit :=
  emit (EMkdir (buildDir self)) ;;;
  document_stage prettyLink ;;;
  page_stage ;;;
  static_stage.

End Build.

(** ** Notions the properties are stated with *)

(** Events by the stage that performs them: documents are written with
    [EWrite], pages with [EDump], static files with [ECopy]; every stage
    may create directories. *)
Definition document_event (e : Event) : Prop :=
  match e with EMkdir _ | EWrite _ _ => True | _ => False end.

Definition page_event (e : Event) : Prop :=
  match e with EMkdir _ | EDump _ _ => True | _ => False end.

Definition static_event (e : Event) : Prop :=
  match e with EMkdir _ | ECopy _ _ _ | EPrint _ => True | _ => False end.

(** A relative path does not start with the separator. *)
Definition relative (path : string) : Prop := Str.startswith path "/" = false.

(** The output tree: the files below the build directory. *)
Definition output_tree (self : GrashSite) (w : World) : gmap string string :=
  tree (buildDir self) (files w).

(** Where the document stage writes the page of the document
    [filepath] of the directory [docdir]. *)
Definition pretty_destination (self : GrashSite) (docdir filepath : string) : string :=
  Posix.join
    (Posix.join (Posix.join (templatePath self) docdir)
                (Pathlib.with_suffix_empty_name filepath))
    "index.html".

(** A write of the document stage: the page of a document found in a
    configured directory, placed in the template tree. *)
Definition document_write `{Collaborators} (self : GrashSite) (e : Event) : Prop :=
  match e with
  | EWrite p _ =>
      exists docdir docType filepath,
        In docdir (pandocDirs self) /\
        In docType (pandocTypes self) /\
        glob_match (Posix.join getcwd docdir) docType filepath = true /\
        p = pretty_destination self docdir filepath /\
        is_under (templatePath self) p = true
  | _ => True
  end.

(** [emits P m w]: every event of the run of [m] from [w] satisfies [P]. *)
Definition emits {A} (P : Event -> Prop) (m : M A) (w : World) : Prop :=
  Forall P (log_of m w).

(** ** A small site to run the model on *)

Module Demo.

(** A converter that wraps the text in a paragraph and an engine that
    yields the template's own source. *)
#[local] Instance collaborators : Collaborators := {|
  getcwd := "/site";
  pandoc_convert := fun text _ => inr ("<p>" +:+ text +:+ "</p>");
  jinja_stream := fun searchpath tr name =>
    match tr !! loader_path searchpath name with
    | Some source => (source, None)
    | None => ("", Some (TemplateNotFound name))
    end
|}.

Definition site : GrashSite := {|
  encoding := "utf8";
  buildDir := "/site/build";
  staticDirs := ["css"; "js"];
  templatePath := "/site/templates";
  pandocDirs := ["posts"];
  pandocTypes := ["org"];
  verbose := true
|}.

(** A fresh checkout: one document, its wrapping module, one page. *)
Definition fresh : World := {|
  files := list_to_map
    [("/site/posts/hello.org", "hi");
     ("/site/templates/_posts.html", "base");
     ("/site/templates/index.html", "home")];
  dirs := ∅
|}.

(** The same checkout after its documents have been converted into the
    template tree. *)
Definition converted : World := {|
  files := <["/site/templates/posts/hello/index.html" :=
             _platify "<p>hi</p>" "_posts.html"]> (files fresh);
  dirs := ∅
|}.

(** The checkout without the wrapping module. *)
Definition unwrapped : World := {|
  files := list_to_map
    [("/site/posts/hello.org", "hi");
     ("/site/templates/index.html", "home")];
  dirs := ∅
|}.

(** The same site with its output root inside the template root. *)
Definition nested_site : GrashSite := {|
  encoding := "utf8";
  buildDir := "/site/templates/out";
  staticDirs := [];
  templatePath := "/site/templates";
  pandocDirs := [];
  pandocTypes := ["org"];
  verbose := true
|}.

End Demo.

(** ** More of [os.path] *)

Module OsPath.

(** [os.path.isabs(s)] *)
Definition isabs (s : string) : bool := Str.startswith s "/".

(** One round of the loop of [normpath]; the components kept so far are
    held last first. *)
Definition norm_step (initial_slashes : bool) (new_comps : list string)
    (comp : string) : list string :=
  if String.eqb comp "" || String.eqb comp "." then new_comps
  else if negb (String.eqb comp "..")
          || (negb initial_slashes && match new_comps with [] => true | _ => false end)
          || match new_comps with last :: _ => String.eqb last ".." | [] => false end
  then comp :: new_comps
  else match new_comps with
       | _ :: popped => popped
       | [] => new_comps
       end.

(** [os.path.normpath(path)] *)
Definition normpath (path : string) : string :=
  if String.eqb path "" then "."
  else
    let slashes :=
      if Str.startswith path "/" then
        if Str.startswith path "//" && negb (Str.startswith path "///")
        then "//" else "/"
      else "" in
    let comps :=
      List.rev (fold_left (norm_step (Str.startswith path "/"))
                          (Str.split Posix.sep path) []) in
    let joined := slashes +:+ String.concat "/" comps in
    if String.eqb joined "" then "." else joined.

(** [os.path.abspath(path)] *)
Definition abspath `{Collaborators} (path : string) : string :=
  normpath (if isabs path then path else Posix.join getcwd path).

(** [os.path.commonprefix] of two lists *)
Fixpoint commonprefix (xs ys : list string) : list string :=
  match xs, ys with
  | x :: xs', y :: ys' => if String.eqb x y then x :: commonprefix xs' ys' else []
  | _, _ => []
  end.

(** [os.path.relpath(path, start)]; [None] stands for the [ValueError]
    raised for an empty path. *)
Definition relpath `{Collaborators} (path start : string) : option string :=
  if String.eqb path "" then None
  else
    let nonempty := fun x => negb (String.eqb x "") in
    let start_list := List.filter nonempty (Str.split Posix.sep (abspath start)) in
    let path_list := List.filter nonempty (Str.split Posix.sep (abspath path)) in
    let i := List.length (commonprefix start_list path_list) in
    let rel_list :=
      List.repeat ".." (List.length start_list - i) ++ List.skipn i path_list in
    match rel_list with
    | [] => Some "."
    | _ :: _ => Some (String.concat "/" rel_list)
    end.

(** Whether some character of the string is not a dot. *)
Fixpoint has_non_dot (s : string) : bool :=
  match s with
  | EmptyString => false
  | String c s' => negb (Ascii.eqb c ".") || has_non_dot s'
  end.

(** [os.path.splitext(p)[1]]: the text from the last dot of the last
    component on, when a character other than a dot stands before it
    in that component. *)
Definition splitext_ext (p : string) : string :=
  let n := Posix.basename p in
  match Pathlib.rfind_dot n with
  | Some i =>
      if has_non_dot (String.substring 0 i n) then Str.drop i n else ""
  | None => ""
  end.

End OsPath.

(** ** [grash/config.py] and [make] *)

Module Config.

Definition BUILD_PATH : string := "build".
Definition ENCODING : string := "utf8".
Definition PANDOC_DIRS : list string := [].
Definition PANDOC_TYPES : list string := ["org"].
Definition TEMPLATE_DIRECTORY : string := "templates".

End Config.

(** [make]: the Jinja environment and the logger it builds are
    collaborators.  [pandocTypes] is accepted and not handed to the
    constructor, whose default is the configured [PANDOC_TYPES]. *)
Definition make (templatePath buildDir : string)
    (pandocDirs pandocTypes staticDirs : list string)
    (encoding : string) (verbose : bool) : GrashSite :=
  {| encoding := encoding;
     buildDir := buildDir;
     staticDirs := staticDirs;
     templatePath := templatePath;
     pandocDirs := pandocDirs;
     pandocTypes := Config.PANDOC_TYPES;
     verbose := verbose |}.

(** ** The command line, [grash/cli.py] *)

Module Cli.

(** The options of the argument map that [render] reads; an option not
    given is [None]. *)
Record Args := {
  opt_src : option string;
  opt_out : option string;
  opt_static : option string;
  cmd_watch : bool
}.

(** How [render] ends: [sys.exit(code)], or the return (or exception) of
    [site.render]. *)
Inductive Outcome :=
| Exited (code : nat)
| Built (r : Exn + unit).

(** [os.path.isdir(path)]: the path is a directory of the world. *)
Definition isdir (path : string) (w : World) : bool :=
  bool_decide (path ∈ dirs w).

(** The three paths [render] works out of the arguments. *)
Definition srcpath `{Collaborators} (args : Args) : string :=
  match opt_src args with
  | None => Config.TEMPLATE_DIRECTORY
  | Some src => if OsPath.isabs src then src else Posix.join getcwd src
  end.

Definition outpath (args : Args) : string :=
  match opt_out args with
  | Some out => out
  | None => Config.BUILD_PATH
  end.

Definition staticpaths (args : Args) : option (list string) :=
  match opt_static args with
  | Some staticdirs =>
      if String.eqb staticdirs "" then None
      else Some (Str.split ","%char staticdirs)
  | None => None
  end.

(** [render(args)], up to the return of [site.render]; with [watch] the
    method then stays in [Watcher.watch]. *)
Definition render `{Collaborators} (args : Args) (w : World)
    : Outcome * list Event :=
  if negb (isdir (srcpath args) w) then
    (Exited 1,
     [EPrint ("The template directory '" +:+ srcpath args +:+ "' is invalid.")])
  else if negb (isdir (outpath args) w) then
    (Exited 1,
     [EPrint ("The output directory '" +:+ outpath args +:+ "' is invalid.")])
  else
    match
      List.find (fun path => negb (isdir (Posix.join (srcpath args) path) w))
                (default [] (staticpaths args))
    with
    | Some path =>
        (Exited 1,
         [EPrint ("The static files directory '"
                  +:+ Posix.join (srcpath args) path +:+ "' is invalid.")])
    | None =>
        let site :=
          make (srcpath args) (outpath args) Config.PANDOC_DIRS
               Config.PANDOC_TYPES (default [] (staticpaths args))
               Config.ENCODING true in
        let '(r, log) := render site true w in
        (Built r, log)
    end.

End Cli.

(** ** The watcher, [grash/watcher.py] *)

(** A watchdog event, as far as [ActionHandler] looks at it. *)
Record FileSystemEvent := {
  event_type : string;
  src_path : string;
  is_directory : bool
}.

(** The handler can also end in exceptions the build never raises. *)
Inductive WatcherExn :=
| ValueError (msg : string)
| TypeError (msg : string)
| Propagated (e : Exn).

Definition W (A : Type) : Type := World -> (WatcherExn + A) * list Event.

Definition lift {A} (m : M A) : W A :=
  fun w =>
    match m w with
    | (inl e, log) => (inl (Propagated e), log)
    | (inr a, log) => (inr a, log)
    end.

Definition wbind {A B} (m : W A) (f : A -> W B) : W B :=
  fun w =>
    match m w with
    | (inl e, log) => (inl e, log)
    | (inr a, log) =>
        let '(r, log') := f a (replay log w) in (r, log ++ log')
    end.

Section Watcher.

Context `{Collaborators}.
Variable site : GrashSite.

(** [Watcher.projectPath] *)
Definition projectPath : string := templatePath site.

(** [Watcher.isHandled] *)
Definition isHandled (actionType source : string) (w : World) : bool :=
  (String.eqb actionType "modified" || String.eqb actionType "created")
  && Str.startswith source projectPath
  && isfile source w.

(** [site.copyStatic] applied to what [getDependencies] returned: file
    names are copied; a template is not a path, and joining the first
    one to the working directory raises. *)
Definition copyStatic_dependencies (deps : Dependencies) (verbose : bool) : W unit :=
  match deps with
  | DepFilenames paths => lift (copyStatic site paths verbose)
  | DepTemplates ts =>
      wbind (lift ts) (fun items =>
        match items with
        | [] => fun _ => (inr tt, [])
        | item :: _ =>
            wbind (lift item) (fun _ => fun _ =>
              (inl (TypeError
                      "expected str, bytes or os.PathLike object, not Template"),
               []))
        end)
  end.

(** [site.renderTemplates] applied to what [getDependencies] returned:
    a file name has no [name] attribute. *)
Definition renderTemplates_dependencies (deps : Dependencies) : M unit :=
  match deps with
  | DepTemplates ts => renderTemplates site ts
  | DepFilenames names =>
      for_each names (fun _ =>
        raise (AttributeError "'str' object has no attribute 'name'"))
  end.

(** [Watcher.actionHandler] *)
Definition actionHandler (actionType source : string) (verbose : bool) : W unit :=
  fun w =>
    match OsPath.relpath source projectPath with
    | None => (inl (ValueError "no path specified"), [])
    | Some filename =>
        if isHandled actionType source w then
          wbind
            (lift (if verbose
                   then emit (EPrint (actionType +:+ " " +:+ filename))
                   else ret tt))
            (fun _ =>
               if isStatic site filename then
                 wbind (lift (getDependencies site filename)) (fun staticFiles =>
                   copyStatic_dependencies staticFiles true)
               else if isPandoc site filename then
                 let docType := Str.drop 1 (OsPath.splitext_ext filename) in
                 lift (renderDoc site docType filename true true)
               else
                 lift (templates <- getDependencies site filename ;;
                       renderTemplates_dependencies templates))
            w
        else (inr tt, [])
    end.

(** [ActionHandler.on_any_event] *)
Definition on_any_event (event : FileSystemEvent) : W unit :=
  if negb (is_directory event)
  then actionHandler (event_type event) (src_path event) true
  else fun _ => (inr tt, []).

End Watcher.

(** ** Notions the further properties are stated with *)

(** Events that write no document and copy nothing. *)
Definition page_or_print_event (e : Event) : Prop :=
  match e with EMkdir _ | EDump _ _ | EPrint _ => True | _ => False end.

(** Events other than a copy and its announcement. *)
Definition not_a_copy (e : Event) : Prop :=
  match e with ECopy _ _ _ | EPrint _ => False | _ => True end.

(** The path an event writes to, if it writes a file. *)
Definition written_path (e : Event) : option string :=
  match e with
  | EWrite p _ | EDump p _ => Some p
  | ECopy _ d _ => Some d
  | EMkdir _ | EPrint _ => None
  end.

(** What [_ensureParent] performs for a file name. *)
Definition ensured_parent (self : GrashSite) (filename : string) : list Event :=
  if negb (String.eqb (Posix.dirname filename) "")
  then [EMkdir (Posix.join (buildDir self) (Posix.dirname filename))]
  else [].

(** An event that writes a file writes it below [root]. *)
Definition writes_below (root : string) (e : Event) : Prop :=
  forall p, written_path e = Some p -> is_under root p = true.

(** A dump of the page stage: the page of a listed template, by name. *)
Definition page_dump (self : GrashSite) (names : list string) (e : Event) : Prop :=
  match e with
  | EDump p _ => exists name, In name names /\ p = Posix.join (buildDir self) name
  | EMkdir _ => True
  | _ => False
  end.

(** A more complete site: directories recorded, a page in a
    subdirectory, a module, a private file and a document. *)
Module Demo2.

Definition site : GrashSite := {|
  encoding := "utf8";
  buildDir := "/site/build";
  staticDirs := ["css"];
  templatePath := "/site/templates";
  pandocDirs := ["posts"];
  pandocTypes := ["org"];
  verbose := true
|}.

Definition world : World := {|
  files := list_to_map
    [("/site/posts/hello.org", "hi");
     ("/site/notes/first.org", "one");
     ("/site/templates/_posts.html", "base");
     ("/site/templates/_notes.html", "base");
     ("/site/templates/index.html", "home");
     ("/site/templates/blog/first.html", "post");
     ("/site/templates/.hidden", "secret");
     ("/site/templates/css", "a file named like the static directory")];
  dirs := list_to_set
    ["/site"; "/site/posts"; "/site/notes"; "/site/templates";
     "/site/templates/blog"; "/site/build"; "templates"; "build"]
|}.

(** The same world with a file whose name starts the name of the
    document directory. *)
Definition with_prefix_file : World := {|
  files := <["/site/templates/po" := "text"]> (files world);
  dirs := dirs world
|}.

End Demo2.

(** A site whose static directory is named like a module, with a file
    whose name starts that directory's name. *)
Module Demo3.

Definition site : GrashSite := {|
  encoding := "utf8";
  buildDir := "/site/build";
  staticDirs := ["_static"];
  templatePath := "/site/templates";
  pandocDirs := [];
  pandocTypes := ["org"];
  verbose := true
|}.

Definition world : World := {|
  files := list_to_map
    [("/site/templates/index.html", "home");
     ("/site/templates/_st", "text")];
  dirs := list_to_set ["/site"; "/site/templates"; "/site/build"]
|}.

End Demo3.

(** ** Notions the last properties are stated with *)

(** The page of a document, as the document stage writes it: the
    document [filepath] of the directory [docdir] holds [text] in [w],
    the converter turns it into [html], and [content] at [path] is that
    text as the body of a template that extends the module template of
    the directory, at [templatePath/<docdir>/<stem>/index.html]. *)
Definition document_page `{Collaborators} (self : GrashSite) (w : World)
    (docdir docType filepath path content : string) : Prop :=
  exists text html,
    files w !! filepath = Some text /\
    pandoc_convert text docType = inr html /\
    path = Posix.join
             (Posix.join (Posix.join (templatePath self) docdir)
                         (Pathlib.with_suffix_empty_name filepath))
             "index.html" /\
    content = "{% extends " +:+ String "034"%char EmptyString
              +:+ "_" +:+ Posix.basename docdir +:+ ".html"
              +:+ String "034"%char EmptyString +:+ " %}"
              +:+ String "010"%char EmptyString +:+ "{% block body %}"
              +:+ String "010"%char EmptyString +:+ html
              +:+ String "010"%char EmptyString +:+ "{% endblock %}".

(** An event of a changed page: the announcement of the change, the
    creation of the page's parent directory below the output root, or a
    dump to the page's own file there. *)
Definition page_change_event (self : GrashSite) (actionType filename : string)
    (e : Event) : Prop :=
  e = EPrint (actionType +:+ " " +:+ filename) \/
  e = EMkdir (Posix.join (buildDir self) (Posix.dirname filename)) \/
  exists content, e = EDump (Posix.join (buildDir self) filename) content.

(** Two directories lie apart when they differ and neither lies in the
    tree below the other. *)
Definition apart (a b : string) : bool :=
  negb (Str.startswith (Posix.join a "") (Posix.join b ""))
  && negb (Str.startswith (Posix.join b "") (Posix.join a "")).

(** What the document stage reads: the files of the document
    directories and the module template of each of them. *)
Definition document_source `{Collaborators} (self : GrashSite) (path : string) : bool :=
  existsb (fun d =>
             is_under (Posix.join getcwd d) path
             || String.eqb path
                  (Posix.join (templatePath self)
                     ("_" +:+ Posix.basename d +:+ ".html")))
          (pandocDirs self).

(** The files at the paths a predicate selects; a computation reads
    only these when it runs alike in two worlds that agree on them. *)
Definition restrict (P : string -> bool) (fs : gmap string string)
    : gmap string string :=
  filter (fun kv : string * string => P kv.1 = true) fs.

Definition reads_only (P : string -> bool) {A} (m : M A) : Prop :=
  forall w w', restrict P (files w) = restrict P (files w') -> m w = m w'.

(** An event that writes a file writes it at a path [P] rejects. *)
Definition writes_outside (P : string -> bool) (e : Event) : Prop :=
  forall p, written_path e = Some p -> P p = false.

(** * Properties *)

(** ** Strings and paths *)

#[local] Arguments String.append : simpl nomatch.

Lemma append_empty_r (s : string) : s +:+ "" = s.
Proof. induction s as [|c s IH]; simpl; [reflexivity | now rewrite IH]. Qed.

Lemma append_assoc (a b c : string) : (a +:+ b) +:+ c = a +:+ (b +:+ c).
Proof. induction a as [|x a IH]; simpl; [reflexivity | now rewrite IH]. Qed.

Lemma startswith_append (p r : string) : Str.startswith (p +:+ r) p = true.
Proof.
  induction p as [|c p IH]; simpl; [reflexivity |].
  now rewrite Ascii.eqb_refl, IH.
Qed.

Lemma startswith_append_l (s p r : string) :
  Str.startswith s p = true -> Str.startswith (s +:+ r) p = true.
Proof.
  revert s; induction p as [|c p IH]; intros s Hs; [reflexivity |].
  destruct s as [|a s]; simpl in *; [discriminate |].
  apply andb_prop in Hs as [Hc Hs]. rewrite Hc. simpl. now apply IH.
Qed.

Lemma startswith_spec (s p : string) :
  Str.startswith s p = true <-> exists r, s = p +:+ r.
Proof.
  split.
  - revert s; induction p as [|c p IH]; intros s Hs.
    + now exists s.
    + destruct s as [|a s]; simpl in Hs; [discriminate |].
      apply andb_prop in Hs as [Hc Hs].
      apply Ascii.eqb_eq in Hc as ->.
      destruct (IH _ Hs) as [r ->]. now exists r.
  - intros [r ->]. apply startswith_append.
Qed.

Lemma split_nonempty (sep : ascii) (s : string) : Str.split sep s <> [].
Proof.
  induction s as [|c s IH]; simpl; [discriminate |].
  destruct (Ascii.eqb c sep); [discriminate |].
  destruct (Str.split sep s); discriminate.
Qed.

(** The pieces of [a + sep + b] are the pieces of [a], then those of [b]. *)
Lemma split_append_sep (sep : ascii) (a b : string) :
  Str.split sep (a +:+ String sep b) = Str.split sep a ++ Str.split sep b.
Proof.
  induction a as [|x a IH]; simpl.
  - now rewrite Ascii.eqb_refl.
  - destruct (Ascii.eqb x sep); [now rewrite IH |].
    rewrite IH. pose proof (split_nonempty sep a) as Hne.
    destruct (Str.split sep a); [contradiction | reflexivity].
Qed.

(** The first piece of a string that starts with a character other than
    the separator starts with that character. *)
Lemma split_head (sep c : ascii) (s : string) :
  Ascii.eqb c sep = false ->
  exists piece rest, Str.split sep (String c s) = String c piece :: rest.
Proof.
  intros Hc. simpl. rewrite Hc.
  pose proof (split_nonempty sep s) as Hne.
  destruct (Str.split sep s) as [|piece rest]; [contradiction |].
  now exists piece, rest.
Qed.

(** A segment that starts with [c] shows among the pieces of the split. *)
Lemma segment_found (c : ascii) (path : string) :
  Ascii.eqb c Posix.sep = false ->
  has_segment_starting c path ->
  existsb (fun route => Str.startswith route (String c ""))
          (Str.split Posix.sep path) = true.
Proof.
  intros Hc (before & after & -> & Hb).
  destruct (split_head Posix.sep c after Hc) as (piece & rest & Hsplit).
  assert (Hhere : existsb (fun route => Str.startswith route (String c ""))
                    (Str.split Posix.sep (String c after)) = true).
  { rewrite Hsplit. simpl. now rewrite Ascii.eqb_refl. }
  destruct Hb as [-> | [before' ->]]; [exact Hhere |].
  rewrite append_assoc.
  change ("/" +:+ String c after) with (String Posix.sep (String c after)).
  rewrite split_append_sep, existsb_app, Hhere. apply orb_true_r.
Qed.

Lemma split_first_piece (c : ascii) (s piece : string) (rest : list string) :
  Str.split Posix.sep s = piece :: rest ->
  Str.startswith piece (String c "") = true ->
  exists after, s = String c after.
Proof.
  destruct s as [|x s]; simpl.
  - intros [= <- <-]. discriminate.
  - destruct (Ascii.eqb x Posix.sep).
    + intros [= <- _]. discriminate.
    + pose proof (split_nonempty Posix.sep s) as Hne.
      destruct (Str.split Posix.sep s) as [|p r]; [contradiction |].
      intros [= <- _]. simpl. intros Hx.
      apply andb_prop in Hx as [Hx _]. apply Ascii.eqb_eq in Hx as ->.
      now exists s.
Qed.

Lemma split_later_piece (c : ascii) (s piece : string) (rest : list string) :
  Str.split Posix.sep s = piece :: rest ->
  existsb (fun route => Str.startswith route (String c "")) rest = true ->
  exists before after, s = (before +:+ "/") +:+ String c after.
Proof.
  revert piece rest. induction s as [|x s IH]; simpl; intros piece rest.
  - intros [= <- <-]. discriminate.
  - destruct (Ascii.eqb x Posix.sep) eqn:Hx.
    + apply Ascii.eqb_eq in Hx as ->.
      intros [= <- <-] Hrest.
      pose proof (split_nonempty Posix.sep s) as Hne.
      destruct (Str.split Posix.sep s) as [|p r] eqn:Hs; [contradiction |].
      simpl in Hrest. apply orb_prop in Hrest as [Hp | Hr].
      * destruct (split_first_piece c s p r Hs Hp) as [after ->].
        now exists "", after.
      * destruct (IH p r eq_refl Hr) as (before & after & ->).
        now exists (String Posix.sep before), after.
    + pose proof (split_nonempty Posix.sep s) as Hne.
      destruct (Str.split Posix.sep s) as [|p r] eqn:Hs; [contradiction |].
      intros [= <- <-] Hrest.
      destruct (IH p r eq_refl Hrest) as (before & after & ->).
      now exists (String x before), after.
Qed.

(** And conversely: a piece of the split that starts with [c] is a
    segment of the path. *)
Lemma segment_of_split (c : ascii) (path : string) :
  existsb (fun route => Str.startswith route (String c ""))
          (Str.split Posix.sep path) = true ->
  has_segment_starting c path.
Proof.
  pose proof (split_nonempty Posix.sep path) as Hne.
  destruct (Str.split Posix.sep path) as [|p r] eqn:Hs; [contradiction |].
  simpl. intros H. apply orb_prop in H as [Hp | Hr].
  - destruct (split_first_piece c path p r Hs Hp) as [after ->].
    exists "", after. split; [reflexivity | now left].
  - destruct (split_later_piece c path p r Hs Hr) as (before & after & ->).
    exists (before +:+ "/"), after. split; [reflexivity |].
    right. now exists before.
Qed.

Lemma isModule_spec (path : string) :
  isModule path = true <-> has_segment_starting "_" path.
Proof.
  split; [apply segment_of_split | now apply segment_found].
Qed.

Lemma isPrivate_spec (path : string) :
  isPrivate path = true <-> has_segment_starting "." path.
Proof.
  split; [apply segment_of_split | now apply segment_found].
Qed.

(** ** Classification *)

(** What the loops of [isStatic] and [isPandoc] compute. *)
Lemma isStatic_head (self : GrashSite) (dirname : string) :
  isStatic self dirname =
  match staticDirs self with
  | [] => false
  | dirpath :: _ => Str.startswith dirpath dirname
  end.
Proof.
  unfold isStatic. destruct (staticDirs self); [reflexivity |].
  now destruct (Str.startswith _ _).
Qed.

Lemma isPandoc_head (self : GrashSite) (dirname : string) :
  isPandoc self dirname =
  match pandocDirs self with
  | [] => false
  | dirpath :: _ => Str.startswith dirpath dirname
  end.
Proof.
  unfold isPandoc. destruct (pandocDirs self); [reflexivity |].
  now destruct (Str.startswith _ _).
Qed.

Lemma isStatic_no_dirs (self : GrashSite) (path : string) :
  staticDirs self = [] -> isStatic self path = false.
Proof. intros H. unfold isStatic. now rewrite H. Qed.

Lemma isPandoc_no_dirs (self : GrashSite) (path : string) :
  pandocDirs self = [] -> isPandoc self path = false.
Proof. intros H. unfold isPandoc. now rewrite H. Qed.

(** C1, evaluated on the code.  With static directories [css] and [js]
    and document directory [posts], a file inside the first static
    directory, a file inside the second one and a document inside
    [posts] all lie under a configured prefix, and [isStatic] and
    [isPandoc] answer false for them; a path that is a proper prefix of
    the first directory's name lies under none and is answered true. *)
Theorem containment_test_is_reversed :
  lies_under (staticDirs Demo.site) "css/site.css" = true /\
  isStatic Demo.site "css/site.css" = false /\
  lies_under (staticDirs Demo.site) "js/app.js" = true /\
  isStatic Demo.site "js/app.js" = false /\
  lies_under (pandocDirs Demo.site) "posts/hello.org" = true /\
  isPandoc Demo.site "posts/hello.org" = false /\
  lies_under (staticDirs Demo.site) "c" = false /\
  isStatic Demo.site "c" = true.
Proof. repeat split; reflexivity. Qed.

(** C3, evaluated on the code.  The path [_drafts/.hidden] has a segment
    that starts with a dot and one that starts with an underscore: it is
    private, [isModule] holds of it and the first-match rule makes it a
    Module. *)
Theorem private_path_is_module :
  has_segment_starting "." "_drafts/.hidden" /\
  isPrivate "_drafts/.hidden" = true /\
  isModule "_drafts/.hidden" = true /\
  classify Demo.site "_drafts/.hidden" = Module_.
Proof.
  split; [| repeat split; reflexivity].
  exists "_drafts/", "hidden". split; [reflexivity |].
  right. now exists "_drafts".
Qed.

(** The part of C3 the code keeps: a private path is never a Page, a
    Static file or a Document. *)
Lemma private_path_categories (self : GrashSite) (path : string) :
  has_segment_starting "." path ->
  isPrivate path = true /\
  classify self path <> Page /\
  classify self path <> Static /\
  classify self path <> Document.
Proof.
  intros H. apply isPrivate_spec in H. unfold classify. rewrite H.
  split; [reflexivity |]. destruct (isModule path); repeat split; discriminate.
Qed.

(** C5.  A path with a segment that starts with an underscore is a
    module and not a template, whatever the static and document
    directories are. *)
Theorem underscore_segment_is_module (self : GrashSite) (path : string) :
  has_segment_starting "_" path ->
  isModule path = true /\ isTemplate self path = false.
Proof.
  intros H. apply isModule_spec in H. unfold isTemplate. now rewrite H.
Qed.

Lemma underscore_segment_is_module_witness :
  has_segment_starting "_" "blog/_layout/base.html" /\
  isModule "blog/_layout/base.html" = true /\
  isTemplate Demo.site "blog/_layout/base.html" = false.
Proof.
  assert (H : has_segment_starting "_" "blog/_layout/base.html").
  { exists "blog/", "layout/base.html". split; [reflexivity |].
    right. now exists "blog". }
  split; [exact H |].
  exact (underscore_segment_is_module Demo.site "blog/_layout/base.html" H).
Defined.

(** ** Running computations *)

Lemma replay_app (l1 l2 : list Event) (w : World) :
  replay (l1 ++ l2) w = replay l2 (replay l1 w).
Proof. apply fold_left_app. Qed.

Lemma bind_inl {A B} (m : M A) (f : A -> M B) (w : World) e log :
  m w = (inl e, log) -> bind m f w = (inl e, log).
Proof. intros Hm. unfold bind. now rewrite Hm. Qed.

Lemma bind_inr {A B} (m : M A) (f : A -> M B) (w : World) a log :
  m w = (inr a, log) ->
  bind m f w = (fst (f a (replay log w)), log ++ snd (f a (replay log w))).
Proof.
  intros Hm. unfold bind. rewrite Hm. now destruct (f a (replay log w)).
Qed.

Lemma bind_gets {A B} (g : World -> A) (f : A -> M B) (w : World) :
  bind (gets g) f w = f (g w) w.
Proof. unfold bind, gets. simpl. now destruct (f (g w) w). Qed.

Lemma bind_ret {A B} (a : A) (f : A -> M B) (w : World) :
  bind (ret a) f w = f a w.
Proof. unfold bind, ret. simpl. now destruct (f a w). Qed.

Lemma bind_emit {B} (e : Event) (f : unit -> M B) (w : World) :
  bind (emit e) f w =
  (fst (f tt (apply_event w e)), e :: snd (f tt (apply_event w e))).
Proof. unfold bind, emit. simpl. now destruct (f tt (apply_event w e)). Qed.

Lemma log_of_bind {A B} (m : M A) (f : A -> M B) (w : World) :
  log_of (bind m f) w =
  log_of m w ++
  match result m w with
  | inr a => log_of (f a) (world_after m w)
  | inl _ => []
  end.
Proof.
  unfold log_of, result, world_after, log_of.
  destruct (m w) as [[e|a] log] eqn:Hm.
  - rewrite (bind_inl _ _ _ _ _ Hm). simpl. now rewrite app_nil_r.
  - now rewrite (bind_inr _ _ _ _ _ Hm).
Qed.

Lemma result_bind {A B} (m : M A) (f : A -> M B) (w : World) :
  result (bind m f) w =
  match result m w with
  | inr a => result (f a) (world_after m w)
  | inl e => inl e
  end.
Proof.
  unfold log_of, result, world_after, log_of.
  destruct (m w) as [[e|a] log] eqn:Hm.
  - now rewrite (bind_inl _ _ _ _ _ Hm).
  - now rewrite (bind_inr _ _ _ _ _ Hm).
Qed.

Lemma emits_bind {A B} (P : Event -> Prop) (m : M A) (f : A -> M B) w :
  emits P m w ->
  (forall a, result m w = inr a -> emits P (f a) (world_after m w)) ->
  emits P (bind m f) w.
Proof.
  unfold emits. intros Hm Hf. rewrite log_of_bind. apply Forall_app. split; [exact Hm |].
  destruct (result m w) as [e|a]; [constructor | now apply Hf].
Qed.

Lemma emits_ret {A} P (a : A) w : emits P (ret a) w.
Proof. constructor. Qed.

Lemma emits_raise {A} P e w : emits P (@raise A e) w.
Proof. constructor. Qed.

Lemma emits_gets {A} P (g : World -> A) w : emits P (gets g) w.
Proof. constructor. Qed.

Lemma emits_emit P e w : P e -> emits P (emit e) w.
Proof. intros. repeat constructor. assumption. Qed.

Lemma emits_read_file P path w : emits P (read_file path) w.
Proof. unfold emits, log_of, read_file. destruct (files w !! path); constructor. Qed.

Lemma emits_for_each {A} P (xs : list A) (body : A -> M unit) :
  forall w,
  (forall x w', In x xs -> emits P (body x) w') ->
  emits P (for_each xs body) w.
Proof.
  induction xs as [|x xs IH]; intros w Hbody; simpl.
  - apply emits_ret.
  - apply emits_bind.
    + apply Hbody. now left.
    + intros _ _. apply IH. intros y w' Hy. apply Hbody. now right.
Qed.

(** ** Dependencies of a changed file *)

(** The branch of [getDependencies] that returns the empty list is never
    taken. *)
Lemma getDependencies_never_empty (self : GrashSite)
    (filename : string) (w : World) :
  result (getDependencies self filename) w <> inr (DepFilenames []).
Proof.
  unfold getDependencies.
  destruct (isModule filename); [discriminate |].
  destruct (isTemplate self filename).
  - rewrite result_bind.
    destruct (result (getTemplate self filename) w); discriminate.
  - rewrite orb_true_r. discriminate.
Qed.

(** What [getDependencies] returns, by the category of the file: a
    Private file is treated like a Static file or a Document. *)
Lemma getDependencies_by_category (self : GrashSite) (filename : string) (w : World) :
  getDependencies self filename w =
  match classify self filename with
  | Module_ => (inr (DepTemplates (templates self)), [])
  | Page =>
      if isfile (loader_path (templatePath self) filename) w
      then (inr (DepTemplates (ret [ret {| template_name := filename |}])), [])
      else (inl (TemplateNotFound filename), [])
  | Static | Document | Private_ => (inr (DepFilenames [filename]), [])
  end.
Proof.
  unfold getDependencies, classify, isTemplate.
  destruct (isModule filename); [reflexivity |].
  destruct (isPrivate filename); simpl; [now rewrite orb_true_r |].
  destruct (isStatic self filename); simpl; [reflexivity |].
  destruct (isPandoc self filename); simpl; [reflexivity |].
  unfold getTemplate, bind, gets. simpl.
  destruct (isfile _ w); reflexivity.
Qed.

(** C2, evaluated on the code.  [.hidden] is a Private path (not a
    Module, not a Page, not Static, not a Document), and the dependencies
    computed for it are the one-element list of its own name, in every
    world. *)
Theorem private_file_has_a_dependency (w : World) :
  classify Demo.site ".hidden" = Private_ /\
  isStatic Demo.site ".hidden" = false /\
  isPandoc Demo.site ".hidden" = false /\
  getDependencies Demo.site ".hidden" w
  = (inr (DepFilenames [".hidden"]), []).
Proof. repeat split; reflexivity. Qed.

(** ** The stages of a full build *)

Section Stages.

Context `{Collaborators}.
Variable self : GrashSite.

Lemma emits_ensureParent P filename w :
  (forall p, P (EMkdir p)) -> emits P (_ensureParent self filename) w.
Proof.
  intros HP. unfold _ensureParent.
  destruct (negb _); [now apply emits_emit | apply emits_ret].
Qed.

Lemma renderDoc_document_events docType path pl vb w :
  emits document_event (renderDoc self docType path pl vb) w.
Proof.
  unfold renderDoc.
  apply emits_bind; [apply emits_gets | intros docfilepaths _].
  apply emits_bind; [apply emits_gets | intros found _].
  destruct (negb found); [apply emits_raise |].
  apply emits_for_each. intros filepath w' _.
  apply emits_bind; [apply emits_read_file | intros text _].
  destruct (pandoc_convert text docType); [apply emits_raise |].
  destruct pl.
  - apply emits_bind; [now apply emits_emit | intros _ _].
    now apply emits_emit.
  - now apply emits_emit.
Qed.

Lemma document_stage_events pl w :
  emits document_event (document_stage self pl) w.
Proof.
  unfold document_stage, renderDocs.
  apply emits_for_each. intros docType w1 _.
  apply emits_for_each. intros path w2 _.
  apply renderDoc_document_events.
Qed.

Lemma renderTemplate_page_events template w :
  emits page_event (renderTemplate self template) w.
Proof.
  unfold renderTemplate.
  apply emits_bind; [now apply emits_ensureParent | intros _ _].
  apply emits_bind; [apply emits_gets | intros out _].
  apply emits_bind; [now apply emits_emit | intros _ _].
  destruct (snd out); [apply emits_raise | apply emits_ret].
Qed.

Lemma getTemplate_silent P name w : emits P (getTemplate self name) w.
Proof.
  unfold getTemplate.
  apply emits_bind; [apply emits_gets | intros found _].
  destruct found; [apply emits_ret | apply emits_raise].
Qed.

Lemma page_stage_events w : emits page_event (page_stage self) w.
Proof.
  unfold page_stage, renderTemplates, templates, templateNames.
  apply emits_bind.
  - apply emits_bind; [apply emits_gets | intros names _; apply emits_ret].
  - intros items Hitems.
    unfold result in Hitems. rewrite bind_gets in Hitems.
    injection Hitems as <-.
    apply emits_for_each. intros item w' Hitem.
    apply in_map_iff in Hitem as (name & <- & _).
    apply emits_bind; [apply getTemplate_silent | intros template _].
    apply renderTemplate_page_events.
Qed.

Lemma static_stage_events w : emits static_event (static_stage self) w.
Proof.
  unfold static_stage, staticFiles, copyStatic.
  apply emits_bind; [apply emits_gets | intros paths _].
  apply emits_for_each. intros path w' _.
  apply emits_bind; [apply emits_raise | intros base _].
  apply emits_bind.
  - destruct (verbose self); [now apply emits_emit | apply emits_ret].
  - intros _ _.
    apply emits_bind; [now apply emits_ensureParent | intros _ _].
    unfold copy2.
    apply emits_bind; [apply emits_read_file | intros content _].
    now apply emits_emit.
Qed.

(** The static stage copies nothing: it returns when there is no static
    file and raises at the first one otherwise. *)
Lemma copyStatic_raises paths vb w :
  copyStatic self paths vb w =
  match paths with
  | [] => (inr tt, [])
  | _ :: _ =>
      (inl (AttributeError "'GrashSite' object has no attribute 'buildPath'"), [])
  end.
Proof. destruct paths; reflexivity. Qed.

Lemma parents_self (p : string) : p <> "" -> In p (Posix.parents p).
Proof.
  intros Hp. unfold Posix.parents. apply filter_In. split.
  - assert (Hgen : forall rest seen, In (seen +:+ rest) (Posix.parents_from seen rest)).
    { induction rest as [|c rest IH]; intros seen; simpl.
      - rewrite append_empty_r. now left.
      - destruct (Ascii.eqb c Posix.sep) eqn:Hc.
        + apply Ascii.eqb_eq in Hc as ->. right.
          specialize (IH (seen +:+ "/")). now rewrite append_assoc in IH.
        + specialize (IH (seen +:+ String c "")). now rewrite append_assoc in IH. }
    exact (Hgen p "").
  - apply negb_true_iff. now apply String.eqb_neq.
Qed.


(** C7.  When the module template [_<basename>.html] of a document
    directory is not a file below the template root, [renderDoc] raises
    the assertion error that names the template's path, whatever the
    flags, and performs no event: nothing is written for the directory. *)
Theorem renderDoc_aborts_without_template
    (docType path : string) (prettyLink vb : bool) (w : World) :
  isfile (Posix.join (templatePath self) ("_" +:+ Posix.basename path +:+ ".html")) w
  = false ->
  renderDoc self docType path prettyLink vb w
  = (inl (AssertionError
            ("No template "
             +:+ Posix.join (templatePath self) ("_" +:+ Posix.basename path +:+ ".html")
             +:+ " has been found, aborting.")),
     []).
Proof.
  intros Hmissing. unfold renderDoc.
  rewrite bind_gets, bind_gets, Hmissing. reflexivity.
Qed.

(** [renderDocs] does not look at its [prettyLink] and [verbose]
    arguments. *)
Lemma renderDocs_ignores_flags docType dirpaths pl vb :
  renderDocs self docType dirpaths pl vb = renderDocs self docType dirpaths true true.
Proof. reflexivity. Qed.

End Stages.

Lemma renderDoc_aborts_without_template_witness :
  isfile (Posix.join (templatePath Demo.site) ("_" +:+ Posix.basename "posts" +:+ ".html"))
         Demo.unwrapped = false /\
  @renderDoc Demo.collaborators Demo.site "org" "posts" true true Demo.unwrapped
  = (inl (AssertionError
            "No template /site/templates/_posts.html has been found, aborting."),
     []).
Proof.
  assert (Hmissing :
    isfile (Posix.join (templatePath Demo.site) ("_" +:+ Posix.basename "posts" +:+ ".html"))
           Demo.unwrapped = false) by (vm_compute; reflexivity).
  split; [exact Hmissing |].
  exact (@renderDoc_aborts_without_template Demo.collaborators Demo.site
           "org" "posts" true true Demo.unwrapped Hmissing).
Defined.

(** The full build of the same checkout stops there: the output root is
    created and nothing else happens. *)
Example render_without_template :
  @render Demo.collaborators Demo.site true Demo.unwrapped
  = (inl (AssertionError
            "No template /site/templates/_posts.html has been found, aborting."),
     [EMkdir "/site/build"]).
Proof. vm_compute. reflexivity. Qed.

(** C8, evaluated on the code.  [renderDocs] called with
    [prettyLink=False] on the fresh checkout writes the document
    [hello.org] of [posts] to [posts/hello/index.html] below the template
    root, as it does with [prettyLink=True]; no file [hello.html] is
    written. *)
Theorem renderDocs_plain_layout_is_pretty :
  @renderDocs Demo.collaborators Demo.site "org" ["posts"] false true Demo.fresh
  = (inr tt,
     [EMkdir "/site/templates/posts/hello";
      EWrite "/site/templates/posts/hello/index.html"
             (_platify "<p>hi</p>" "_posts.html")]) /\
  @renderDocs Demo.collaborators Demo.site "org" ["posts"] false true Demo.fresh
  = @renderDocs Demo.collaborators Demo.site "org" ["posts"] true true Demo.fresh.
Proof. split; vm_compute; reflexivity. Qed.

(** [renderDoc] itself, called without pretty links, keeps the file's
    name and extension. *)
Example renderDoc_plain_keeps_name :
  @renderDoc Demo.collaborators Demo.site "org" "posts" false true Demo.fresh
  = (inr tt,
     [EWrite "/site/templates/posts/hello.org" (_platify "<p>hi</p>" "_posts.html")]).
Proof. vm_compute. reflexivity. Qed.

(** ** Where documents are written *)

Lemma basename_no_sep (p : string) : Str.contains "/" (Posix.basename p) = false.
Proof.
  unfold Posix.basename.
  induction p as [|c p IH]; simpl; [reflexivity |].
  destruct (Posix.rsplit_sep p) as [[h|] t]; simpl in *; [exact IH |].
  destruct (Ascii.eqb c Posix.sep) eqn:Hc; simpl; [exact IH |].
  unfold Posix.sep in Hc. now rewrite Hc, IH.
Qed.

Lemma substring_relative (k : nat) (n : string) :
  Str.contains "/" n = false -> relative (String.substring 0 k n).
Proof.
  unfold relative. destruct n as [|a n]; destruct k; simpl; try reflexivity.
  intros Hn. apply orb_false_elim in Hn as [Ha _]. now rewrite Ha.
Qed.

Lemma with_suffix_empty_name_relative (filepath : string) :
  relative (Pathlib.with_suffix_empty_name filepath).
Proof. apply substring_relative, basename_no_sep. Qed.

Lemma join_relative (a b : string) :
  relative b -> Posix.join a b = Posix.join a "" +:+ b.
Proof.
  unfold relative, Posix.join. intros ->. simpl.
  destruct (String.eqb a "" || Str.endswith a "/").
  - now rewrite append_empty_r.
  - now rewrite !append_assoc.
Qed.

Lemma startswith_join (a b q : string) :
  relative b -> Str.startswith a q = true -> Str.startswith (Posix.join a b) q = true.
Proof.
  intros Hb Ha. unfold Posix.join. rewrite Hb.
  destruct (_ || _); now apply startswith_append_l.
Qed.

Lemma is_under_join (root b : string) :
  relative b -> is_under root (Posix.join root b) = true.
Proof.
  intros Hb. unfold is_under. rewrite (join_relative root b Hb).
  apply startswith_append.
Qed.

Lemma is_under_join_deeper (root a b : string) :
  relative b -> is_under root a = true -> is_under root (Posix.join a b) = true.
Proof. intros Hb Ha. now apply startswith_join. Qed.

Lemma pretty_destination_in_templates (self : GrashSite) (docdir filepath : string) :
  relative docdir ->
  is_under (templatePath self) (pretty_destination self docdir filepath) = true.
Proof.
  intros Hd. unfold pretty_destination.
  apply is_under_join_deeper; [reflexivity |].
  apply is_under_join_deeper; [apply with_suffix_empty_name_relative |].
  now apply is_under_join.
Qed.

Lemma glob_match_of_glob (source docType filepath : string) (w : World) :
  In filepath (glob source docType w) -> glob_match source docType filepath = true.
Proof.
  unfold glob. intros Hin.
  apply list_elem_of_In, list_elem_of_fmap in Hin as ([k v] & -> & Hkv).
  apply elem_of_map_to_list, map_lookup_filter_Some in Hkv as [_ Hk].
  exact Hk.
Qed.

(** Files are never removed: what an event of the log wrote is a file
    of the world the log leaves. *)
Lemma replay_keeps_files (log : list Event) (w : World) (p : string) :
  is_Some (files w !! p) -> is_Some (files (replay log w) !! p).
Proof.
  revert w. induction log as [|e log IH]; intros w Hp; [exact Hp |].
  simpl. apply IH.
  destruct e; simpl; try exact Hp;
    (destruct (decide (p = path)) as [-> | Hne] ||
     destruct (decide (p = destination)) as [-> | Hne]);
    rewrite ?lookup_insert_eq, ?lookup_insert_ne by congruence; eauto.
Qed.

Lemma replay_written (log : list Event) (w : World) (p c : string) :
  In (EWrite p c) log -> is_Some (files (replay log w) !! p).
Proof.
  revert w. induction log as [|e log IH]; intros w; [intros [] |].
  intros [-> | Hin]; simpl.
  - apply replay_keeps_files. simpl. rewrite lookup_insert_eq. eauto.
  - now apply IH.
Qed.

Section DocumentWrites.

Context `{Collaborators}.
Variable self : GrashSite.

Lemma renderDoc_document_writes docType path vb w :
  In path (pandocDirs self) -> In docType (pandocTypes self) -> relative path ->
  emits (document_write self) (renderDoc self docType path true vb) w.
Proof.
  intros Hpath Htype Hrel. unfold renderDoc.
  apply emits_bind; [apply emits_gets | intros docfilepaths Hglob].
  injection Hglob as <-.
  apply emits_bind; [apply emits_gets | intros found _].
  destruct (negb found); [apply emits_raise |].
  apply emits_for_each. intros filepath w' Hfile.
  apply glob_match_of_glob in Hfile.
  apply emits_bind; [apply emits_read_file | intros text _].
  destruct (pandoc_convert text docType); [apply emits_raise |].
  apply emits_bind; [now apply emits_emit | intros _ _].
  apply emits_emit. simpl.
  exists path, docType, filepath. repeat split; try assumption.
  now apply pretty_destination_in_templates.
Qed.

Lemma document_stage_document_writes pl w :
  Forall relative (pandocDirs self) ->
  emits (document_write self) (document_stage self pl) w.
Proof.
  intros Hrel. unfold document_stage, renderDocs.
  apply emits_for_each. intros docType w1 Htype.
  apply emits_for_each. intros path w2 Hpath.
  apply renderDoc_document_writes; try assumption.
  rewrite Forall_forall in Hrel. now apply Hrel, list_elem_of_In.
Qed.

End DocumentWrites.

(** ** Building twice *)

Lemma world_eq (w w' : World) :
  files w = files w' -> dirs w = dirs w' -> w = w'.
Proof. destruct w, w'. simpl. now intros -> ->. Qed.

(** Replaying a log lays what it wrote over the world it starts from. *)
Lemma replay_overlay (log : list Event) (w : World) :
  files (replay log w) = files (replay log {| files := ∅; dirs := ∅ |}) ∪ files w /\
  dirs (replay log w) = dirs (replay log {| files := ∅; dirs := ∅ |}) ∪ dirs w.
Proof.
  revert w. induction log as [|e log IH]; intros w.
  - simpl. now rewrite !(left_id_L ∅ (∪)).
  - simpl. destruct (IH (apply_event w e)) as [Hf Hd].
    destruct (IH (apply_event {| files := ∅; dirs := ∅ |} e)) as [Hf0 Hd0].
    rewrite Hf, Hd, Hf0, Hd0. clear.
    destruct e; simpl;
      rewrite ?insert_union_singleton_l, ?(right_id_L ∅ (∪)), ?(assoc_L (∪));
      split; reflexivity.
Qed.

(** Replaying a log a second time changes nothing. *)
Lemma replay_twice (log : list Event) (w : World) :
  replay log (replay log w) = replay log w.
Proof.
  destruct (replay_overlay log (replay log w)) as [Hf Hd].
  destruct (replay_overlay log w) as [Hf' Hd'].
  apply world_eq.
  - rewrite Hf, Hf', (assoc_L (∪)), (idemp_L (∪)). reflexivity.
  - rewrite Hd, Hd', (assoc_L (∪)), (idemp_L (∪)). reflexivity.
Qed.

(** What that build writes: the page and the converted document, each
    rendered below the output root. *)
Example render_converted_checkout :
  @render Demo.collaborators Demo.site true Demo.converted
  = (inr tt,
     [EMkdir "/site/build";
      EMkdir "/site/templates/posts/hello";
      EWrite "/site/templates/posts/hello/index.html"
             (_platify "<p>hi</p>" "_posts.html");
      EDump "/site/build/index.html" "home";
      EMkdir "/site/build/posts/hello";
      EDump "/site/build/posts/hello/index.html"
            (_platify "<p>hi</p>" "_posts.html")]).
Proof. vm_compute. reflexivity. Qed.

(** * Further properties *)

(** ** The classification predicates, exactly *)

(** [isStatic] holds exactly of the prefixes of the first configured
    static directory's name, and [isPandoc] of the prefixes of the first
    document directory's name. *)
Theorem isStatic_isPandoc_exact (self : GrashSite) (name : string) :
  (isStatic self name = true <->
   exists d tail rest, staticDirs self = d :: tail /\ d = name +:+ rest) /\
  (isPandoc self name = true <->
   exists d tail rest, pandocDirs self = d :: tail /\ d = name +:+ rest).
Proof.
  split.
  - rewrite isStatic_head. destruct (staticDirs self) as [|d tail].
    + split; [discriminate | now intros (? & ? & ? & ? & _)].
    + rewrite startswith_spec. split.
      * intros [rest ->]. now exists (name +:+ rest), tail, rest.
      * intros (d' & tail' & rest & [= -> _] & ->). now exists rest.
  - rewrite isPandoc_head. destruct (pandocDirs self) as [|d tail].
    + split; [discriminate | now intros (? & ? & ? & ? & _)].
    + rewrite startswith_spec. split.
      * intros [rest ->]. now exists (name +:+ rest), tail, rest.
      * intros (d' & tail' & rest & [= -> _] & ->). now exists rest.
Qed.

(** [isModule] holds exactly of the paths with a segment that starts
    with an underscore, [isPrivate] of those with a segment that starts
    with a dot. *)
Theorem isModule_isPrivate_exact (path : string) :
  (isModule path = true <-> has_segment_starting "_" path) /\
  (isPrivate path = true <-> has_segment_starting "." path).
Proof. split; [apply isModule_spec | apply isPrivate_spec]. Qed.

(** ** What a full build does and never does *)

Lemma emits_weaken {A} (P Q : Event -> Prop) (m : M A) (w : World) :
  (forall e, P e -> Q e) -> emits P m w -> emits Q m w.
Proof. intros HPQ HP. unfold emits in *. rewrite Forall_forall in *. auto. Qed.

Section FullBuild.

Context `{Collaborators}.
Variable self : GrashSite.

Lemma static_stage_run (w : World) :
  static_stage self w =
  match list_templates (templatePath self) (isStatic self) w with
  | [] => (inr tt, [])
  | _ :: _ =>
      (inl (AttributeError "'GrashSite' object has no attribute 'buildPath'"), [])
  end.
Proof.
  unfold static_stage, staticFiles. rewrite bind_gets. apply copyStatic_raises.
Qed.

Lemma static_stage_silent (w : World) : log_of (static_stage self) w = [].
Proof.
  unfold log_of. rewrite static_stage_run.
  now destruct (list_templates _ _ w).
Qed.

(** The run of [render], stage by stage. *)
Lemma render_run (prettyLink : bool) (w : World) :
  render self prettyLink w =
  let w0 := apply_event w (EMkdir (buildDir self)) in
  match document_stage self prettyLink w0 with
  | (inl e, docs) => (inl e, EMkdir (buildDir self) :: docs)
  | (inr _, docs) =>
      match page_stage self (replay docs w0) with
      | (inl e, pages) => (inl e, EMkdir (buildDir self) :: docs ++ pages)
      | (inr _, pages) =>
          (fst (static_stage self (replay pages (replay docs w0))),
           EMkdir (buildDir self) :: docs ++ pages)
      end
  end.
Proof.
  unfold render. rewrite bind_emit. cbv zeta.
  generalize (apply_event w (EMkdir (buildDir self))). intros w0.
  destruct (document_stage self prettyLink w0) as [[e|[]] docs] eqn:Hdocs.
  - now rewrite (bind_inl _ _ _ _ _ Hdocs).
  - rewrite (bind_inr _ _ _ _ _ Hdocs). simpl.
    destruct (page_stage self (replay docs w0)) as [[e|[]] pages] eqn:Hpages.
    + now rewrite (bind_inl _ _ _ _ _ Hpages).
    + rewrite (bind_inr _ _ _ _ _ Hpages). simpl.
      pose proof (static_stage_silent (replay pages (replay docs w0))) as Hsilent.
      unfold log_of in Hsilent. rewrite Hsilent, !app_nil_r. reflexivity.
Qed.

(** A full build never copies a file and never announces a copy,
    whatever the configuration and the world: its events are directory
    creations, document writes and page dumps. *)
Theorem render_never_copies (prettyLink : bool) (w : World) (e : Event) :
  In e (log_of (render self prettyLink) w) -> not_a_copy e.
Proof.
  unfold log_of. rewrite render_run. cbv zeta.
  pose proof (document_stage_events self prettyLink
                (apply_event w (EMkdir (buildDir self)))) as Hdocs.
  unfold emits, log_of in Hdocs.
  destruct (document_stage self prettyLink _) as [[x|[]] docs].
  - simpl. intros [<- | Hin]; [exact I |].
    rewrite Forall_forall in Hdocs.
    specialize (Hdocs _ (proj2 (list_elem_of_In _ _) Hin)). now destruct e.
  - pose proof (page_stage_events self (replay docs
                  (apply_event w (EMkdir (buildDir self))))) as Hpages.
    unfold emits, log_of in Hpages. simpl in Hdocs.
    assert (Hall : forall pages, Forall page_event pages ->
              In e (EMkdir (buildDir self) :: docs ++ pages) -> not_a_copy e).
    { intros pages Hp [<- | Hin]; [exact I |].
      apply in_app_or in Hin as [Hin | Hin].
      - rewrite Forall_forall in Hdocs.
        specialize (Hdocs _ (proj2 (list_elem_of_In _ _) Hin)). now destruct e.
      - rewrite Forall_forall in Hp.
        specialize (Hp _ (proj2 (list_elem_of_In _ _) Hin)). now destruct e. }
    destruct (page_stage self _) as [[x|[]] pages]; simpl; now apply Hall.
Qed.

(** A full build returns only when, after its page stage, no file of the
    template tree is a static file in the sense of [isStatic]: with one,
    it raises. *)
Theorem render_returns_without_static_files (prettyLink : bool) (w : World) :
  result (render self prettyLink) w = inr tt ->
  list_templates (templatePath self) (isStatic self)
                 (world_after (render self prettyLink) w) = [].
Proof.
  unfold result, world_after, log_of. rewrite render_run. cbv zeta.
  destruct (document_stage self prettyLink _) as [[x|[]] docs]; [discriminate |].
  destruct (page_stage self _) as [[x|[]] pages]; [discriminate |].
  simpl. rewrite static_stage_run.
  rewrite replay_app.
  destruct (list_templates _ _ _); [reflexivity | discriminate].
Qed.

End FullBuild.

Lemma render_returns_without_static_files_witness :
  result (@render Demo.collaborators Demo.site true) Demo.fresh = inr tt /\
  list_templates (templatePath Demo.site) (isStatic Demo.site)
    (world_after (@render Demo.collaborators Demo.site true) Demo.fresh) = [].
Proof.
  assert (Hreturns : result (@render Demo.collaborators Demo.site true) Demo.fresh
                     = inr tt) by (vm_compute; reflexivity).
  split; [exact Hreturns |].
  exact (@render_returns_without_static_files Demo.collaborators Demo.site true
           Demo.fresh Hreturns).
Defined.

Lemma render_never_copies_witness :
  In (EDump "/site/build/index.html" "home")
     (log_of (@render Demo.collaborators Demo.site true) Demo.fresh) /\
  not_a_copy (EDump "/site/build/index.html" "home").
Proof.
  assert (Hin : In (EDump "/site/build/index.html" "home")
                   (log_of (@render Demo.collaborators Demo.site true) Demo.fresh)).
  { vm_compute. do 3 right. left. reflexivity. }
  split; [exact Hin |].
  exact (@render_never_copies Demo.collaborators Demo.site true Demo.fresh _ Hin).
Defined.

(** ** The page stage *)

Lemma replay_frame (log : list Event) (w : World) (k : string) :
  Forall (fun e => written_path e <> Some k) log ->
  files (replay log w) !! k = files w !! k.
Proof.
  revert w. induction log as [|e log IH]; intros w Hlog; [reflexivity |].
  apply Forall_cons in Hlog as [He Hlog]. simpl. rewrite (IH _ Hlog).
  destruct e; simpl in *; try reflexivity;
    apply lookup_insert_ne; congruence.
Qed.

Section PageStage.

Context `{Collaborators}.
Variable self : GrashSite.

Lemma renderTemplate_run (t : Template) (w : World) :
  renderTemplate self t w =
  let out := jinja_stream (templatePath self) (tree (templatePath self) (files w))
                          (template_name t) in
  (match snd out with Some e => inl e | None => inr tt end,
   ensured_parent self (template_name t)
   ++ [EDump (Posix.join (buildDir self) (template_name t)) (fst out)]).
Proof.
  unfold renderTemplate, _ensureParent, ensured_parent.
  destruct (negb _).
  - rewrite bind_emit, bind_gets, bind_emit. simpl.
    destruct (snd (jinja_stream _ _ _)); reflexivity.
  - rewrite bind_ret, bind_gets, bind_emit. simpl.
    destruct (snd (jinja_stream _ _ _)); reflexivity.
Qed.

Lemma getTemplate_run (name : string) (w : World) :
  getTemplate self name w =
  if isfile (loader_path (templatePath self) name) w
  then (inr {| template_name := name |}, [])
  else (inl (TemplateNotFound name), []).
Proof.
  unfold getTemplate. rewrite bind_gets. now destruct (isfile _ w).
Qed.

(** One round of the loop of [renderTemplates] over [templates]. *)
Lemma page_item_run (name : string) (w : World) :
  bind (getTemplate self name) (renderTemplate self) w =
  if isfile (loader_path (templatePath self) name) w
  then renderTemplate self {| template_name := name |} w
  else (inl (TemplateNotFound name), []).
Proof.
  unfold bind. rewrite getTemplate_run.
  destruct (isfile _ w); [| reflexivity].
  simpl. destruct (renderTemplate self _ w) as [r log]. reflexivity.
Qed.

Lemma page_stage_run (w : World) :
  page_stage self w =
  for_each
    (List.map (getTemplate self)
       (list_templates (templatePath self) (isTemplate self) w))
    (fun item => template <- item ;; renderTemplate self template) w.
Proof.
  unfold page_stage, renderTemplates, templates, templateNames.
  unfold bind at 1. unfold bind at 1. unfold gets, ret. simpl.
  now destruct (for_each _ _ w).
Qed.

Lemma ensured_parent_page_dump names filename :
  Forall (page_dump self names) (ensured_parent self filename).
Proof.
  unfold ensured_parent. destruct (negb _); repeat constructor.
Qed.

Lemma page_items_dump (names listed : list string) (w : World) :
  (forall name, In name listed -> In name names) ->
  emits (page_dump self names)
    (for_each (List.map (getTemplate self) listed)
       (fun item => template <- item ;; renderTemplate self template)) w.
Proof.
  intros Hsub. apply emits_for_each. intros item w' Hitem.
  apply in_map_iff in Hitem as (name & <- & Hname).
  unfold emits, log_of. rewrite page_item_run.
  destruct (isfile _ w'); [| constructor].
  rewrite renderTemplate_run. simpl.
  apply Forall_app. split; [apply ensured_parent_page_dump |].
  repeat constructor. exists name. split; [now apply Hsub | reflexivity].
Qed.

(** Every file the page stage writes is the page of a template listed
    when the stage starts, written below the output root under the
    template's name; the template is neither a module nor private. *)
Theorem page_stage_renders_only_pages (w : World) (p c : string) :
  In (EDump p c) (log_of (page_stage self) w) ->
  exists name,
    In name (list_templates (templatePath self) (isTemplate self) w) /\
    isTemplate self name = true /\
    isModule name = false /\
    isPrivate name = false /\
    p = Posix.join (buildDir self) name.
Proof.
  intros Hin.
  pose proof (page_items_dump
                (list_templates (templatePath self) (isTemplate self) w)
                (list_templates (templatePath self) (isTemplate self) w) w
                (fun _ Hn => Hn)) as Hall.
  unfold emits, log_of in Hall. unfold log_of in Hin.
  rewrite page_stage_run in Hin. rewrite Forall_forall in Hall.
  specialize (Hall _ (proj2 (list_elem_of_In _ _) Hin)).
  destruct Hall as (name & Hname & ->).
  exists name. split; [exact Hname |].
  unfold list_templates in Hname. apply filter_In in Hname as [_ Htemplate].
  split; [exact Htemplate |].
  unfold isTemplate in Htemplate.
  destruct (isModule name), (isPrivate name); simpl in Htemplate;
    try discriminate. now repeat split.
Qed.

(** The template tree is left alone by events that write outside it. *)
Lemma tree_replay_outside (root : string) (log : list Event) (w : World) :
  Forall (fun e => forall p, written_path e = Some p -> is_under root p = false) log ->
  tree root (files (replay log w)) = tree root (files w).
Proof.
  revert w. induction log as [|e log IH]; intros w Hlog; [reflexivity |].
  apply Forall_cons in Hlog as [He Hlog]. simpl. rewrite (IH _ Hlog).
  unfold tree.
  destruct e; simpl in *; try reflexivity;
    apply map_filter_insert_not; intros y; simpl;
    rewrite (He _ eq_refl); discriminate.
Qed.

Lemma renderTemplate_log_outside (name : string) (w : World) :
  is_under (templatePath self) (Posix.join (buildDir self) name) = false ->
  Forall (fun e => forall p, written_path e = Some p ->
                   is_under (templatePath self) p = false)
         (log_of (renderTemplate self {| template_name := name |}) w).
Proof.
  intros Hout. unfold log_of. rewrite renderTemplate_run. simpl.
  apply Forall_app. split.
  - unfold ensured_parent. destruct (negb _); repeat constructor.
    intros p [=].
  - repeat constructor. now intros p [= <-].
Qed.

Lemma page_items_dump_all (T : gmap string string) (listed : list string) :
  (forall name, In name listed ->
     is_under (templatePath self) (Posix.join (buildDir self) name) = false) ->
  forall w,
  tree (templatePath self) (files w) = T ->
  result (for_each (List.map (getTemplate self) listed)
            (fun item => template <- item ;; renderTemplate self template)) w
  = inr tt ->
  forall name, In name listed ->
  In (EDump (Posix.join (buildDir self) name)
            (fst (jinja_stream (templatePath self) T name)))
     (log_of (for_each (List.map (getTemplate self) listed)
                (fun item => template <- item ;; renderTemplate self template)) w).
Proof.
  induction listed as [|x listed IH]; intros Hout w HT Hres name Hname;
    [destruct Hname |].
  simpl in *. rewrite result_bind in Hres. rewrite log_of_bind.
  unfold result, world_after, log_of in *. rewrite page_item_run in *.
  destruct (isfile _ w); [| discriminate].
  pose proof (renderTemplate_log_outside x w (Hout x (or_introl eq_refl))) as Hlog.
  unfold log_of in Hlog.
  rewrite renderTemplate_run in *. cbv zeta in *. rewrite HT in *.
  simpl fst in *. simpl snd in *.
  destruct (snd (jinja_stream (templatePath self) T x)); [discriminate |].
  apply in_or_app. destruct Hname as [-> | Hname].
  - left. apply in_or_app. right. now left.
  - right. apply IH; try assumption.
    + intros n Hn. apply Hout. now right.
    + rewrite tree_replay_outside; assumption.
Qed.



End PageStage.

Lemma page_stage_renders_only_pages_witness :
  In (EDump "/site/build/blog/first.html" "post")
     (log_of (@page_stage Demo.collaborators Demo2.site) Demo2.world) /\
  exists name,
    In name (list_templates (templatePath Demo2.site) (isTemplate Demo2.site)
                            Demo2.world) /\
    isTemplate Demo2.site name = true /\
    isModule name = false /\
    isPrivate name = false /\
    "/site/build/blog/first.html" = Posix.join (buildDir Demo2.site) name.
Proof.
  assert (Hin : In (EDump "/site/build/blog/first.html" "post")
                   (log_of (@page_stage Demo.collaborators Demo2.site) Demo2.world)).
  { vm_compute. do 2 right. left. reflexivity. }
  split; [exact Hin |].
  exact (@page_stage_renders_only_pages Demo.collaborators Demo2.site
           Demo2.world _ _ Hin).
Defined.



(** ** Documents *)

Lemma endswith_cons (c : ascii) (s p : string) :
  Str.endswith (String c s) p = String.eqb (String c s) p || Str.endswith s p.
Proof. reflexivity. Qed.

Lemma endswith_append (a n s : string) :
  Str.endswith n s = true -> Str.endswith (a +:+ n) s = true.
Proof.
  intros Hn. induction a as [|c a IH]; [exact Hn |].
  change (String c a +:+ n) with (String c (a +:+ n)).
  rewrite endswith_cons, IH. apply orb_true_r.
Qed.

Lemma endswith_spec (s p : string) :
  Str.endswith s p = true -> exists a, s = a +:+ p.
Proof.
  induction s as [|c s IH].
  - destruct p; [now exists "" | discriminate].
  - rewrite endswith_cons. intros Hs. apply orb_prop in Hs as [Heq | Hs].
    + apply String.eqb_eq in Heq as <-. now exists "".
    + destruct (IH Hs) as [a ->]. now exists (String c a).
Qed.

Lemma drop_append (a b : string) : Str.drop (String.length a) (a +:+ b) = b.
Proof. induction a as [|c a IH]; [reflexivity | exact IH]. Qed.

Lemma rsplit_sep_plain (n : string) :
  Str.contains "/" n = false -> Posix.rsplit_sep n = (None, n).
Proof.
  induction n as [|c n IH]; simpl; [reflexivity |].
  intros Hn. apply orb_false_elim in Hn as [Hc Hn].
  rewrite (IH Hn). unfold Posix.sep. now rewrite Hc.
Qed.

(** The last component of a path that ends with a separator and a name. *)
Lemma basename_after_sep (a n : string) :
  Str.contains "/" n = false -> Posix.basename ((a +:+ "/") +:+ n) = n.
Proof.
  intros Hn. unfold Posix.basename.
  assert (Hgen : exists h, Posix.rsplit_sep ((a +:+ "/") +:+ n) = (Some h, n)).
  { induction a as [|c a [h IH]]; simpl.
    - rewrite (rsplit_sep_plain n Hn). now exists "".
    - rewrite IH. now exists (String c h). }
  destruct Hgen as [h ->]. reflexivity.
Qed.

Lemma relative_of_plain (n s : string) :
  Str.contains "/" n = false -> relative n.
Proof.
  unfold relative. destruct n as [|c n]; [reflexivity |].
  simpl. intros Hn. apply orb_false_elim in Hn as [Hc _]. now rewrite Hc.
Qed.

(** The directory prefix of a glob is empty or ends with a separator. *)
Lemma join_empty_shape (source : string) :
  Posix.join source "" = "" \/ exists a, Posix.join source "" = a +:+ "/".
Proof.
  unfold Posix.join. change (Str.startswith "" "/") with false. cbv iota.
  destruct (String.eqb source "") eqn:Hempty.
  - apply String.eqb_eq in Hempty as ->. now left.
  - destruct (Str.endswith source "/") eqn:Hends; simpl orb; cbv iota; right.
    + rewrite append_empty_r. now apply endswith_spec.
    + exists source. now rewrite append_empty_r.
Qed.

(** What the glob tells of a path it yields: it is the directory prefix
    followed by a name without separator that ends with the type. *)
Lemma glob_match_name (source docType filepath : string) :
  glob_match source docType filepath = true ->
  Str.contains "/" (Pathlib.name filepath) = false /\
  Str.endswith (Pathlib.name filepath) ("." +:+ docType) = true.
Proof.
  unfold glob_match, is_under. intros Hm.
  apply andb_prop in Hm as [Hunder Hm]. apply andb_prop in Hm as [Hplain Hends].
  apply negb_true_iff in Hplain.
  apply startswith_spec in Hunder as [n ->].
  rewrite drop_append in Hplain, Hends.
  unfold Pathlib.name.
  destruct (join_empty_shape source) as [-> | [a ->]].
  - simpl. unfold Posix.basename. rewrite (rsplit_sep_plain n Hplain). now split.
  - rewrite (basename_after_sep a n Hplain). now split.
Qed.

Section Documents.

Context `{Collaborators}.
Variable self : GrashSite.


Lemma for_each_app_run {A} (xs ys : list A) (body : A -> M unit) (w : World) :
  for_each (xs ++ ys) body w =
  match for_each xs body w with
  | (inl e, log) => (inl e, log)
  | (inr _, log) =>
      (fst (for_each ys body (replay log w)),
       log ++ snd (for_each ys body (replay log w)))
  end.
Proof.
  revert w. induction xs as [|x xs IH]; intros w.
  - simpl. now destruct (for_each ys body w).
  - simpl. destruct (body x w) as [[e|[]] log] eqn:Hx.
    + now rewrite !(bind_inl _ _ _ _ _ Hx).
    + rewrite !(bind_inr _ _ _ _ _ Hx), IH.
      destruct (for_each xs body (replay log w)) as [[e|[]] log'];
        [reflexivity |].
      simpl. now rewrite replay_app, app_assoc.
Qed.

(** There is no atomicity across document directories: when the
    directories before [path] were converted and the module template of
    [path] is missing then, [renderDocs] raises the assertion error for
    [path], keeps what was written for the directories before it, and
    does not reach the directories after it. *)
Theorem renderDocs_keeps_earlier_directories
    (docType path : string) (before after : list string) (pl vb : bool) (w : World) :
  result (renderDocs self docType before pl vb) w = inr tt ->
  isfile (Posix.join (templatePath self) ("_" +:+ Posix.basename path +:+ ".html"))
         (world_after (renderDocs self docType before pl vb) w) = false ->
  renderDocs self docType (before ++ path :: after) pl vb w
  = (inl (AssertionError
            ("No template "
             +:+ Posix.join (templatePath self) ("_" +:+ Posix.basename path +:+ ".html")
             +:+ " has been found, aborting.")),
     log_of (renderDocs self docType before pl vb) w).
Proof.
  unfold result, world_after, log_of, renderDocs. intros Hres Hmissing.
  rewrite for_each_app_run.
  destruct (for_each before _ w) as [[e|[]] log]; [discriminate |].
  cbn [fst snd for_each] in *.
  assert (Hdoc : renderDoc self docType path true true (replay log w)
                 = (inl (AssertionError
                           ("No template "
                            +:+ Posix.join (templatePath self)
                                  ("_" +:+ Posix.basename path +:+ ".html")
                            +:+ " has been found, aborting.")), [])).
  { unfold renderDoc. rewrite bind_gets, bind_gets, Hmissing. reflexivity. }
  rewrite (bind_inl _ _ _ _ _ Hdoc). cbn [fst snd]. now rewrite app_nil_r.
Qed.

End Documents.


Lemma renderDocs_keeps_earlier_directories_witness :
  result (@renderDocs Demo.collaborators Demo.site "org" ["posts"] true true)
         Demo.fresh = inr tt /\
  isfile (Posix.join (templatePath Demo.site) ("_" +:+ Posix.basename "notes" +:+ ".html"))
         (world_after (@renderDocs Demo.collaborators Demo.site "org" ["posts"] true true)
                      Demo.fresh) = false /\
  @renderDocs Demo.collaborators Demo.site "org" (["posts"] ++ "notes" :: ["drafts"])
              true true Demo.fresh
  = (inl (AssertionError
            ("No template "
             +:+ Posix.join (templatePath Demo.site) ("_" +:+ Posix.basename "notes" +:+ ".html")
             +:+ " has been found, aborting.")),
     log_of (@renderDocs Demo.collaborators Demo.site "org" ["posts"] true true)
            Demo.fresh).
Proof.
  assert (Hres : result (@renderDocs Demo.collaborators Demo.site "org" ["posts"]
                           true true) Demo.fresh = inr tt)
    by (vm_compute; reflexivity).
  assert (Hmissing :
    isfile (Posix.join (templatePath Demo.site)
              ("_" +:+ Posix.basename "notes" +:+ ".html"))
           (world_after (@renderDocs Demo.collaborators Demo.site "org" ["posts"]
                           true true) Demo.fresh) = false)
    by (vm_compute; reflexivity).
  split; [exact Hres |]. split; [exact Hmissing |].
  exact (@renderDocs_keeps_earlier_directories Demo.collaborators Demo.site
           "org" "notes" ["posts"] ["drafts"] true true Demo.fresh Hres Hmissing).
Defined.

(** ** The command line *)

Section CommandLine.

Context `{Collaborators}.

Lemma render_without_document_dirs (self : GrashSite) (pl : bool) (w : World) :
  pandocDirs self = [] ->
  emits page_or_print_event (render self pl) w.
Proof.
  intros Hdirs. unfold render.
  apply emits_bind; [now apply emits_emit | intros _ _].
  apply emits_bind.
  { unfold document_stage, renderDocs. rewrite Hdirs.
    apply emits_for_each. intros docType w' _. apply emits_ret. }
  intros _ _. apply emits_bind.
  - eapply emits_weaken; [| apply page_stage_events]. now intros [].
  - intros _ _. unfold emits. rewrite static_stage_silent. constructor.
Qed.

(** When the command exits it exits with code 1 after printing one
    line, having changed nothing; this happens exactly when the template
    directory, the output directory or one of the static directories is
    not a directory. *)
Theorem cli_exit_changes_nothing (args : Cli.Args) (w : World)
    (code : nat) (log : list Event) :
  Cli.render args w = (Cli.Exited code, log) ->
  code = 1 /\
  (exists line, log = [EPrint line]) /\
  replay log w = w /\
  (Cli.isdir (Cli.srcpath args) w = false \/
   Cli.isdir (Cli.outpath args) w = false \/
   exists path,
     In path (default [] (Cli.staticpaths args)) /\
     Cli.isdir (Posix.join (Cli.srcpath args) path) w = false).
Proof.
  unfold Cli.render.
  destruct (Cli.isdir (Cli.srcpath args) w) eqn:Hsrc; simpl.
  2: { intros [= <- <-]. repeat split; eauto. }
  destruct (Cli.isdir (Cli.outpath args) w) eqn:Hout; simpl.
  2: { intros [= <- <-]. repeat split; eauto. }
  destruct (find _ _) as [path|] eqn:Hfind.
  - intros [= <- <-]. apply find_some in Hfind as [Hin Hbad].
    apply negb_true_iff in Hbad. repeat split; eauto.
  - destruct (render _ true w). discriminate.
Qed.

(** Whatever the arguments, a run of the command converts no document
    and copies no file: it prints, creates directories and renders
    pages. *)
Theorem cli_never_converts_documents (args : Cli.Args) (w : World) :
  Forall page_or_print_event (snd (Cli.render args w)).
Proof.
  unfold Cli.render.
  destruct (negb (Cli.isdir (Cli.srcpath args) w)); [repeat constructor |].
  destruct (negb (Cli.isdir (Cli.outpath args) w)); [repeat constructor |].
  destruct (find _ _); [repeat constructor |].
  pose proof (render_without_document_dirs
                (make (Cli.srcpath args) (Cli.outpath args) Config.PANDOC_DIRS
                      Config.PANDOC_TYPES (default [] (Cli.staticpaths args))
                      Config.ENCODING true)
                true w eq_refl) as Hall.
  unfold emits, log_of in Hall.
  destruct (render _ true w). exact Hall.
Qed.

End CommandLine.

Lemma cli_exit_changes_nothing_witness :
  @Cli.render Demo.collaborators
     {| Cli.opt_src := None; Cli.opt_out := None;
        Cli.opt_static := Some "css,js"; Cli.cmd_watch := false |}
     Demo2.world
  = (Cli.Exited 1,
     [EPrint "The static files directory 'templates/css' is invalid."]) /\
  1 = 1 /\
  (exists line,
     [EPrint "The static files directory 'templates/css' is invalid."]
     = [EPrint line]) /\
  replay [EPrint "The static files directory 'templates/css' is invalid."] Demo2.world
  = Demo2.world /\
  (Cli.isdir (@Cli.srcpath Demo.collaborators
                {| Cli.opt_src := None; Cli.opt_out := None;
                   Cli.opt_static := Some "css,js"; Cli.cmd_watch := false |})
             Demo2.world = false \/
   Cli.isdir (Cli.outpath
                {| Cli.opt_src := None; Cli.opt_out := None;
                   Cli.opt_static := Some "css,js"; Cli.cmd_watch := false |})
             Demo2.world = false \/
   exists path,
     In path (default [] (Cli.staticpaths
                {| Cli.opt_src := None; Cli.opt_out := None;
                   Cli.opt_static := Some "css,js"; Cli.cmd_watch := false |})) /\
     Cli.isdir (Posix.join
                  (@Cli.srcpath Demo.collaborators
                     {| Cli.opt_src := None; Cli.opt_out := None;
                        Cli.opt_static := Some "css,js"; Cli.cmd_watch := false |})
                  path)
               Demo2.world = false).
Proof.
  assert (Hrun : @Cli.render Demo.collaborators
     {| Cli.opt_src := None; Cli.opt_out := None;
        Cli.opt_static := Some "css,js"; Cli.cmd_watch := false |}
     Demo2.world
  = (Cli.Exited 1,
     [EPrint "The static files directory 'templates/css' is invalid."]))
    by (vm_compute; reflexivity).
  split; [exact Hrun |].
  exact (@cli_exit_changes_nothing Demo.collaborators _ _ _ _ Hrun).
Defined.

(** ** The watcher *)

Section WatcherProperties.

Context `{Collaborators}.
Variable site : GrashSite.

(** The handler after its announcement: printing changes nothing. *)
Lemma wbind_print {B} (line : string) (f : unit -> W B) (w : World) :
  wbind (lift (emit (EPrint line))) f w
  = (fst (f tt w), EPrint line :: snd (f tt w)).
Proof. unfold wbind, lift, emit. simpl. now destruct (f tt w). Qed.

Lemma actionHandler_handled (actionType source filename : string) (w : World) :
  OsPath.relpath source (templatePath site) = Some filename ->
  isHandled site actionType source w = true ->
  actionHandler site actionType source true w =
  (fst ((if isStatic site filename then
           wbind (lift (getDependencies site filename)) (fun staticFiles =>
             copyStatic_dependencies site staticFiles true)
         else if isPandoc site filename then
           lift (renderDoc site (Str.drop 1 (OsPath.splitext_ext filename))
                           filename true true)
         else
           lift (templates <- getDependencies site filename ;;
                 renderTemplates_dependencies site templates)) w),
   EPrint (actionType +:+ " " +:+ filename)
   :: snd ((if isStatic site filename then
              wbind (lift (getDependencies site filename)) (fun staticFiles =>
                copyStatic_dependencies site staticFiles true)
            else if isPandoc site filename then
              lift (renderDoc site (Str.drop 1 (OsPath.splitext_ext filename))
                              filename true true)
            else
              lift (templates <- getDependencies site filename ;;
                    renderTemplates_dependencies site templates)) w)).
Proof.
  intros Hrel Hhandled. unfold actionHandler, projectPath.
  rewrite Hrel, Hhandled. apply wbind_print.
Qed.

(** Events on directories, events other than a modification or a
    creation, and events on paths that are not files or do not start
    with the template path are dropped: the handler returns and nothing
    happens. *)
Theorem watcher_drops_other_events (event : FileSystemEvent) (w : World) :
  src_path event <> "" ->
  is_directory event = true \/
  (event_type event <> "modified" /\ event_type event <> "created") \/
  Str.startswith (src_path event) (templatePath site) = false \/
  isfile (src_path event) w = false ->
  on_any_event site event w = (inr tt, []).
Proof.
  intros Hsrc Hwhy. unfold on_any_event.
  destruct (is_directory event) eqn:Hdir; simpl; [reflexivity |].
  unfold actionHandler, OsPath.relpath.
  destruct (String.eqb (src_path event) "") eqn:Hempty.
  { apply String.eqb_eq in Hempty. contradiction. }
  assert (Hno : isHandled site (event_type event) (src_path event) w = false).
  { unfold isHandled, projectPath.
    destruct Hwhy as [Hd | [[Hm Hc] | [Hs | Hf]]].
    - discriminate.
    - apply String.eqb_neq in Hm, Hc. now rewrite Hm, Hc.
    - rewrite Hs. now rewrite andb_false_r.
    - rewrite Hf. now rewrite andb_false_r. }
  cbv zeta. destruct (repeat _ _ ++ _); now rewrite Hno.
Qed.

(** A handled change to a module that is neither static nor a document
    in the sense of the predicates re-renders every page: after the
    announcement the handler runs the page stage of the full build. *)
Theorem watcher_module_change (actionType source filename : string) (w : World) :
  OsPath.relpath source (templatePath site) = Some filename ->
  isHandled site actionType source w = true ->
  isModule filename = true ->
  isStatic site filename = false ->
  isPandoc site filename = false ->
  actionHandler site actionType source true w =
  (match result (page_stage site) w with
   | inl e => inl (Propagated e)
   | inr u => inr u
   end,
   EPrint (actionType +:+ " " +:+ filename) :: log_of (page_stage site) w).
Proof.
  intros Hrel Hhandled Hmodule Hstatic Hpandoc.
  rewrite (actionHandler_handled _ _ _ _ Hrel Hhandled), Hstatic, Hpandoc.
  assert (Hdeps : getDependencies site filename w
                  = (inr (DepTemplates (templates site)), [])).
  { unfold getDependencies. now rewrite Hmodule. }
  unfold lift, result, log_of. rewrite (bind_inr _ _ _ _ _ Hdeps).
  cbn [replay fold_left renderTemplates_dependencies app].
  fold (page_stage site).
  now destruct (page_stage site w) as [[e|u] log].
Qed.

(** A handled change to a private file that is not a module is not
    ignored: its name is handed to [renderTemplates] as if it were a
    template, and the handler raises on it after the announcement,
    rendering nothing. *)
Theorem watcher_private_change (actionType source filename : string) (w : World) :
  OsPath.relpath source (templatePath site) = Some filename ->
  isHandled site actionType source w = true ->
  classify site filename = Private_ ->
  isStatic site filename = false ->
  isPandoc site filename = false ->
  actionHandler site actionType source true w =
  (inl (Propagated (AttributeError "'str' object has no attribute 'name'")),
   [EPrint (actionType +:+ " " +:+ filename)]).
Proof.
  intros Hrel Hhandled Hprivate Hstatic Hpandoc.
  rewrite (actionHandler_handled _ _ _ _ Hrel Hhandled), Hstatic, Hpandoc.
  pose proof (getDependencies_by_category site filename w) as Hdeps.
  rewrite Hprivate in Hdeps.
  unfold lift. rewrite (bind_inr _ _ _ _ _ Hdeps). reflexivity.
Qed.

(** A handled change to a static file that is not a module copies
    nothing: the handler raises in [copyStatic] after the announcement. *)
Theorem watcher_static_change (actionType source filename : string) (w : World) :
  OsPath.relpath source (templatePath site) = Some filename ->
  isHandled site actionType source w = true ->
  isStatic site filename = true ->
  isModule filename = false ->
  actionHandler site actionType source true w =
  (inl (Propagated
          (AttributeError "'GrashSite' object has no attribute 'buildPath'")),
   [EPrint (actionType +:+ " " +:+ filename)]).
Proof.
  intros Hrel Hhandled Hstatic Hmodule.
  rewrite (actionHandler_handled _ _ _ _ Hrel Hhandled), Hstatic.
  assert (Hdeps : getDependencies site filename w
                  = (inr (DepFilenames [filename]), [])).
  { unfold getDependencies, isTemplate. rewrite Hmodule, Hstatic.
    now rewrite !orb_true_r. }
  unfold wbind, lift. rewrite Hdeps. reflexivity.
Qed.

End WatcherProperties.

Lemma watcher_drops_other_events_witness :
  "/site/templates/index.html" <> "" /\
  @on_any_event Demo.collaborators Demo2.site
     {| event_type := "deleted"; src_path := "/site/templates/index.html";
        is_directory := false |}
     Demo2.world
  = (inr tt, []).
Proof.
  assert (Hsrc : "/site/templates/index.html" <> "") by discriminate.
  split; [exact Hsrc |].
  apply (@watcher_drops_other_events Demo.collaborators Demo2.site
           {| event_type := "deleted"; src_path := "/site/templates/index.html";
              is_directory := false |}
           Demo2.world Hsrc).
  right. left. split; discriminate.
Defined.

Lemma watcher_module_change_witness :
  @OsPath.relpath Demo.collaborators "/site/templates/_posts.html"
     (templatePath Demo2.site) = Some "_posts.html" /\
  isHandled Demo2.site "modified" "/site/templates/_posts.html" Demo2.world = true /\
  isModule "_posts.html" = true /\
  @actionHandler Demo.collaborators Demo2.site "modified"
     "/site/templates/_posts.html" true Demo2.world
  = (inr tt,
     [EPrint "modified _posts.html";
      EDump "/site/build/index.html" "home";
      EMkdir "/site/build/blog";
      EDump "/site/build/blog/first.html" "post"]).
Proof.
  assert (Hrel : @OsPath.relpath Demo.collaborators "/site/templates/_posts.html"
                   (templatePath Demo2.site) = Some "_posts.html")
    by (vm_compute; reflexivity).
  assert (Hhandled : isHandled Demo2.site "modified"
                       "/site/templates/_posts.html" Demo2.world = true)
    by (vm_compute; reflexivity).
  assert (Hmodule : isModule "_posts.html" = true) by (vm_compute; reflexivity).
  assert (Hstatic : isStatic Demo2.site "_posts.html" = false)
    by (vm_compute; reflexivity).
  assert (Hpandoc : isPandoc Demo2.site "_posts.html" = false)
    by (vm_compute; reflexivity).
  split; [exact Hrel |]. split; [exact Hhandled |]. split; [exact Hmodule |].
  rewrite (@watcher_module_change Demo.collaborators Demo2.site "modified"
             "/site/templates/_posts.html" "_posts.html" Demo2.world
             Hrel Hhandled Hmodule Hstatic Hpandoc).
  vm_compute. reflexivity.
Defined.

Lemma watcher_private_change_witness :
  @OsPath.relpath Demo.collaborators "/site/templates/.hidden"
     (templatePath Demo2.site) = Some ".hidden" /\
  isHandled Demo2.site "created" "/site/templates/.hidden" Demo2.world = true /\
  classify Demo2.site ".hidden" = Private_ /\
  @actionHandler Demo.collaborators Demo2.site "created"
     "/site/templates/.hidden" true Demo2.world
  = (inl (Propagated (AttributeError "'str' object has no attribute 'name'")),
     [EPrint ("created" +:+ " " +:+ ".hidden")]).
Proof.
  assert (Hrel : @OsPath.relpath Demo.collaborators "/site/templates/.hidden"
                   (templatePath Demo2.site) = Some ".hidden")
    by (vm_compute; reflexivity).
  assert (Hhandled : isHandled Demo2.site "created"
                       "/site/templates/.hidden" Demo2.world = true)
    by (vm_compute; reflexivity).
  assert (Hprivate : classify Demo2.site ".hidden" = Private_)
    by (vm_compute; reflexivity).
  assert (Hstatic : isStatic Demo2.site ".hidden" = false)
    by (vm_compute; reflexivity).
  assert (Hpandoc : isPandoc Demo2.site ".hidden" = false)
    by (vm_compute; reflexivity).
  split; [exact Hrel |]. split; [exact Hhandled |]. split; [exact Hprivate |].
  exact (@watcher_private_change Demo.collaborators Demo2.site "created"
           "/site/templates/.hidden" ".hidden" Demo2.world
           Hrel Hhandled Hprivate Hstatic Hpandoc).
Defined.

Lemma watcher_static_change_witness :
  @OsPath.relpath Demo.collaborators "/site/templates/css"
     (templatePath Demo2.site) = Some "css" /\
  isHandled Demo2.site "modified" "/site/templates/css" Demo2.world = true /\
  isStatic Demo2.site "css" = true /\
  @actionHandler Demo.collaborators Demo2.site "modified"
     "/site/templates/css" true Demo2.world
  = (inl (Propagated
            (AttributeError "'GrashSite' object has no attribute 'buildPath'")),
     [EPrint ("modified" +:+ " " +:+ "css")]).
Proof.
  assert (Hrel : @OsPath.relpath Demo.collaborators "/site/templates/css"
                   (templatePath Demo2.site) = Some "css")
    by (vm_compute; reflexivity).
  assert (Hhandled : isHandled Demo2.site "modified"
                       "/site/templates/css" Demo2.world = true)
    by (vm_compute; reflexivity).
  assert (Hstatic : isStatic Demo2.site "css" = true) by (vm_compute; reflexivity).
  assert (Hmodule : isModule "css" = false) by (vm_compute; reflexivity).
  split; [exact Hrel |]. split; [exact Hhandled |]. split; [exact Hstatic |].
  exact (@watcher_static_change Demo.collaborators Demo2.site "modified"
           "/site/templates/css" "css" Demo2.world
           Hrel Hhandled Hstatic Hmodule).
Defined.

Section WatcherDocuments.

Context `{Collaborators}.
Variable site : GrashSite.

(** A handled change to a path of which [isPandoc] holds hands the
    changed path itself to [renderDoc] as the document directory: when
    no module template named after that path exists, the handler raises
    the assertion error after the announcement and converts nothing. *)
Theorem watcher_document_change (actionType source filename : string) (w : World) :
  OsPath.relpath source (templatePath site) = Some filename ->
  isHandled site actionType source w = true ->
  isStatic site filename = false ->
  isPandoc site filename = true ->
  isfile (Posix.join (templatePath site) ("_" +:+ Posix.basename filename +:+ ".html")) w
  = false ->
  actionHandler site actionType source true w =
  (inl (Propagated
          (AssertionError
             ("No template "
              +:+ Posix.join (templatePath site)
                    ("_" +:+ Posix.basename filename +:+ ".html")
              +:+ " has been found, aborting."))),
   [EPrint (actionType +:+ " " +:+ filename)]).
Proof.
  intros Hrel Hhandled Hstatic Hpandoc Hmissing.
  rewrite (actionHandler_handled site _ _ _ _ Hrel Hhandled), Hstatic, Hpandoc.
  unfold lift, renderDoc. rewrite bind_gets, bind_gets, Hmissing. reflexivity.
Qed.

End WatcherDocuments.

Lemma watcher_document_change_witness :
  @OsPath.relpath Demo.collaborators "/site/templates/po"
     (templatePath Demo2.site) = Some "po" /\
  isHandled Demo2.site "modified" "/site/templates/po" Demo2.with_prefix_file = true /\
  isPandoc Demo2.site "po" = true /\
  @actionHandler Demo.collaborators Demo2.site "modified"
     "/site/templates/po" true Demo2.with_prefix_file
  = (inl (Propagated
            (AssertionError
               ("No template "
                +:+ Posix.join (templatePath Demo2.site)
                      ("_" +:+ Posix.basename "po" +:+ ".html")
                +:+ " has been found, aborting."))),
     [EPrint ("modified" +:+ " " +:+ "po")]).
Proof.
  assert (Hrel : @OsPath.relpath Demo.collaborators "/site/templates/po"
                   (templatePath Demo2.site) = Some "po")
    by (vm_compute; reflexivity).
  assert (Hhandled : isHandled Demo2.site "modified" "/site/templates/po"
                       Demo2.with_prefix_file = true)
    by (vm_compute; reflexivity).
  assert (Hstatic : isStatic Demo2.site "po" = false) by (vm_compute; reflexivity).
  assert (Hpandoc : isPandoc Demo2.site "po" = true) by (vm_compute; reflexivity).
  assert (Hmissing :
    isfile (Posix.join (templatePath Demo2.site)
              ("_" +:+ Posix.basename "po" +:+ ".html"))
           Demo2.with_prefix_file = false)
    by (vm_compute; reflexivity).
  split; [exact Hrel |]. split; [exact Hhandled |]. split; [exact Hpandoc |].
  exact (@watcher_document_change Demo.collaborators Demo2.site "modified"
           "/site/templates/po" "po" Demo2.with_prefix_file
           Hrel Hhandled Hstatic Hpandoc Hmissing).
Defined.

(** ** From document to output *)

Lemma list_templates_In (root name : string) (f : string -> bool) (w : World) :
  is_Some (files w !! loader_path root name) ->
  f name = true ->
  In name (list_templates root f w).
Proof.
  intros [content Hfile] Hf. unfold list_templates.
  apply filter_In. split; [| exact Hf].
  apply in_map_iff. exists (loader_path root name). split.
  - unfold loader_name, loader_path. apply drop_append.
  - apply list_elem_of_In, list_elem_of_fmap.
    exists (loader_path root name, content). split; [reflexivity |].
    apply elem_of_map_to_list, map_lookup_filter_Some. split; [exact Hfile |].
    unfold is_under, loader_path. apply startswith_append.
Qed.

Section Pipeline.

Context `{Collaborators}.
Variable self : GrashSite.

Lemma page_items_all_dumped (listed : list string) :
  forall w,
  result (for_each (List.map (getTemplate self) listed)
            (fun item => template <- item ;; renderTemplate self template)) w
  = inr tt ->
  forall name, In name listed ->
  exists content,
    In (EDump (Posix.join (buildDir self) name) content)
       (log_of (for_each (List.map (getTemplate self) listed)
                  (fun item => template <- item ;; renderTemplate self template)) w).
Proof.
  induction listed as [|x listed IH]; intros w Hres name Hname;
    [destruct Hname |].
  cbn [List.map for_each] in *. rewrite result_bind in Hres. rewrite log_of_bind.
  unfold result, world_after, log_of in *. rewrite page_item_run in *.
  destruct (isfile _ w); [| discriminate].
  rewrite renderTemplate_run in *. cbv zeta in *.
  cbn [fst snd template_name] in *.
  destruct (snd (jinja_stream _ _ x)); [discriminate |].
  destruct Hname as [-> | Hname].
  - eexists. apply in_or_app. left. apply in_or_app. right. now left.
  - destruct (IH _ Hres name Hname) as [content Hin].
    exists content. apply in_or_app. now right.
Qed.

(** Documents reach the output through the template tree: when a full
    build returns, every document page it wrote into the template tree
    under a name that is a template has been rendered by the page stage
    of the same build, below the output root under that name. *)
Theorem converted_documents_are_rendered
    (prettyLink : bool) (w : World) (name c : string) :
  result (render self prettyLink) w = inr tt ->
  In (EWrite (loader_path (templatePath self) name) c)
     (log_of (render self prettyLink) w) ->
  isTemplate self name = true ->
  exists content,
    In (EDump (Posix.join (buildDir self) name) content)
       (log_of (render self prettyLink) w).
Proof.
  unfold result, log_of. rewrite render_run. cbv zeta.
  generalize (apply_event w (EMkdir (buildDir self))). intros w0.
  pose proof (page_stage_events self) as Hpages.
  destruct (document_stage self prettyLink w0) as [[e|[]] docs];
    [discriminate |].
  specialize (Hpages (replay docs w0)). unfold emits, log_of in Hpages.
  pose proof (page_items_all_dumped
                (list_templates (templatePath self) (isTemplate self)
                                (replay docs w0)) (replay docs w0)) as Hall.
  unfold result, log_of in Hall. rewrite <- page_stage_run in Hall.
  destruct (page_stage self (replay docs w0)) as [[e|[]] pages];
    [discriminate |].
  cbn [fst snd] in *. intros _ Hin Htemplate.
  assert (Hdoc : In (EWrite (loader_path (templatePath self) name) c) docs).
  { destruct Hin as [Hin | Hin]; [discriminate |].
    apply in_app_or in Hin as [Hin | Hin]; [exact Hin |].
    rewrite Forall_forall in Hpages.
    now specialize (Hpages _ (proj2 (list_elem_of_In _ _) Hin)). }
  destruct (Hall eq_refl name) as [content Hdump].
  { apply list_templates_In; [| exact Htemplate].
    exact (replay_written docs w0 _ _ Hdoc). }
  exists content. right. apply in_or_app. now right.
Qed.

End Pipeline.

Lemma converted_documents_are_rendered_witness :
  result (@render Demo.collaborators Demo.site true) Demo.fresh = inr tt /\
  In (EWrite (loader_path (templatePath Demo.site) "posts/hello/index.html")
             (_platify "<p>hi</p>" "_posts.html"))
     (log_of (@render Demo.collaborators Demo.site true) Demo.fresh) /\
  isTemplate Demo.site "posts/hello/index.html" = true /\
  exists content,
    In (EDump (Posix.join (buildDir Demo.site) "posts/hello/index.html") content)
       (log_of (@render Demo.collaborators Demo.site true) Demo.fresh).
Proof.
  assert (Hres : result (@render Demo.collaborators Demo.site true) Demo.fresh
                 = inr tt) by (vm_compute; reflexivity).
  assert (Hin :
    In (EWrite (loader_path (templatePath Demo.site) "posts/hello/index.html")
               (_platify "<p>hi</p>" "_posts.html"))
       (log_of (@render Demo.collaborators Demo.site true) Demo.fresh)).
  { vm_compute. do 2 right. left. reflexivity. }
  assert (Htemplate : isTemplate Demo.site "posts/hello/index.html" = true)
    by (vm_compute; reflexivity).
  split; [exact Hres |]. split; [exact Hin |]. split; [exact Htemplate |].
  exact (@converted_documents_are_rendered Demo.collaborators Demo.site true
           Demo.fresh _ _ Hres Hin Htemplate).
Defined.

(** * Categories, documents and repeated builds *)

(** ** Categories as the code tests them *)


Section Categories.

Context `{Collaborators}.
Variable self : GrashSite.

Lemma list_templates_accepts (name : string) (f : string -> bool) (w : World) :
  In name (list_templates (templatePath self) f w) -> f name = true.
Proof. unfold list_templates. intros Hin. now apply filter_In in Hin. Qed.

(** What the handler performs for a file of which [isStatic] holds,
    module or not: the announcement and nothing else. *)
Lemma static_branch_log (filename : string) (w : World) :
  snd (wbind (lift (getDependencies self filename))
             (fun staticFiles => copyStatic_dependencies self staticFiles true) w)
  = [] \/ isStatic self filename = false.
Proof.
  destruct (isStatic self filename) eqn:Hstatic; [left | now right].
  unfold wbind, lift, getDependencies, isTemplate. rewrite Hstatic.
  destruct (isModule filename) eqn:Hmodule.
  - unfold ret. cbn [replay fold_left copyStatic_dependencies app].
    unfold wbind, lift, templates, templateNames.
    rewrite bind_gets. unfold ret.
    destruct (list_templates (templatePath self) (isTemplate self) w) as [|n names];
      [reflexivity |].
    cbn [List.map replay fold_left app]. rewrite getTemplate_run.
    destruct (isfile _ w); reflexivity.
  - rewrite !orb_true_r. reflexivity.
Qed.


End Categories.


(** ** The documents the stage converts, one by one *)

(** An event of a loop belongs to the round of one item, run in the
    world the rounds before it left. *)
Lemma for_each_event {A} (xs : list A) (body : A -> M unit) (w : World)
    (before after : list Event) (e : Event) :
  log_of (for_each xs body) w = before ++ e :: after ->
  exists x b1 b2 a2,
    In x xs /\ before = b1 ++ b2 /\
    log_of (body x) (replay b1 w) = b2 ++ e :: a2.
Proof.
  revert w before. induction xs as [|x xs IH]; intros w before Hlog.
  - destruct before; discriminate Hlog.
  - cbn [for_each] in Hlog. rewrite log_of_bind in Hlog.
    apply app_eq_app in Hlog as [l [[Hx Hrest] | [Hbefore Hrest]]].
    + destruct l as [|e' l].
      * rewrite app_nil_r in Hx. simpl in Hrest. symmetry in Hrest.
        destruct (result (body x) w) as [err|[]] eqn:Hres; [discriminate |].
        destruct (IH _ [] Hrest) as (y & b1 & b2 & a2 & Hy & Hb & Hrun).
        exists y, (before ++ b1), b2, a2. split; [now right |].
        split.
        { destruct b1; [| discriminate]. destruct b2; [| discriminate].
          now rewrite !app_nil_r. }
        rewrite replay_app. unfold world_after in Hrun. now rewrite <- Hx.
      * injection Hrest as <- Hrest.
        exists x, [], before, l. split; [now left |]. split; [reflexivity |].
        exact Hx.
    + destruct (result (body x) w) as [err|[]] eqn:Hres.
      { destruct l; discriminate. }
      destruct (IH _ l Hrest) as (y & b1 & b2 & a2 & Hy & Hb & Hrun).
      exists y, (log_of (body x) w ++ b1), b2, a2. split; [now right |].
      split; [rewrite Hbefore, Hb; now rewrite app_assoc |].
      rewrite replay_app. exact Hrun.
Qed.

(** When a loop returns, every item had its round, and the round
    returned. *)
Lemma for_each_round {A} (xs : list A) (body : A -> M unit) (w : World) (x : A) :
  result (for_each xs body) w = inr tt ->
  In x xs ->
  exists before after,
    log_of (for_each xs body) w
    = before ++ log_of (body x) (replay before w) ++ after /\
    result (body x) (replay before w) = inr tt.
Proof.
  revert w. induction xs as [|y xs IH]; intros w Hres Hin; [destruct Hin |].
  cbn [for_each] in *. rewrite result_bind in Hres. rewrite log_of_bind.
  destruct (result (body y) w) as [err|[]] eqn:Hy; [discriminate |].
  destruct Hin as [-> | Hin].
  - exists [], (log_of (for_each xs body) (world_after (body x) w)).
    split; [reflexivity | exact Hy].
  - destruct (IH _ Hres Hin) as (before & after & Hlog & Hx).
    exists (log_of (body y) w ++ before), after.
    rewrite replay_app. split; [| exact Hx].
    rewrite Hlog. unfold world_after. now rewrite <- app_assoc.
Qed.

Lemma replay_mkdir_files (log : list Event) (d : string) (w : World) :
  files (replay (log ++ [EMkdir d]) w) = files (replay log w).
Proof. now rewrite replay_app. Qed.

(** The last write to a path is what the path holds. *)
Lemma replay_last_write (before : list Event) (p c : string) (w : World) :
  files (replay (before ++ [EWrite p c]) w) !! p = Some c.
Proof. rewrite replay_app. simpl. apply lookup_insert_eq. Qed.

Section DocumentPages.

Context `{Collaborators}.
Variable self : GrashSite.

(** The text [_platify] builds, spelled out. *)
Lemma platify_text (html docdir : string) :
  _platify html ("_" +:+ Posix.basename docdir +:+ ".html")
  = "{% extends " +:+ String "034"%char EmptyString
    +:+ "_" +:+ Posix.basename docdir +:+ ".html"
    +:+ String "034"%char EmptyString +:+ " %}"
    +:+ String "010"%char EmptyString +:+ "{% block body %}"
    +:+ String "010"%char EmptyString +:+ html
    +:+ String "010"%char EmptyString +:+ "{% endblock %}".
Proof. unfold _platify. cbv zeta. now rewrite !append_assoc. Qed.

(** [renderDoc] with pretty links, step by step. *)
Lemma renderDoc_pretty_run (docType path : string) (vb : bool) (w : World) :
  renderDoc self docType path true vb w =
  if isfile (Posix.join (templatePath self)
               ("_" +:+ Posix.basename path +:+ ".html")) w
  then
    for_each (glob (Posix.join getcwd path) docType w) (fun filepath =>
      text <- read_file filepath ;;
      match pandoc_convert text docType with
      | inl e => raise e
      | inr htmltext =>
          emit (EMkdir (Posix.join (Posix.join (templatePath self) path)
                          (Pathlib.with_suffix_empty_name filepath))) ;;;
          emit (EWrite
                  (Posix.join
                     (Posix.join (Posix.join (templatePath self) path)
                        (Pathlib.with_suffix_empty_name filepath))
                     "index.html")
                  (_platify htmltext ("_" +:+ Posix.basename path +:+ ".html")))
      end) w
  else
    (inl (AssertionError
            ("No template "
             +:+ Posix.join (templatePath self) ("_" +:+ Posix.basename path +:+ ".html")
             +:+ " has been found, aborting.")),
     []).
Proof.
  unfold renderDoc. rewrite bind_gets, bind_gets.
  now destruct (isfile _ w).
Qed.

(** One round of the loop of [renderDoc]. *)
Lemma document_round_run (docType path filepath : string) (w : World) :
  (text <- read_file filepath ;;
   match pandoc_convert text docType with
   | inl e => raise e
   | inr htmltext =>
       emit (EMkdir (Posix.join (Posix.join (templatePath self) path)
                       (Pathlib.with_suffix_empty_name filepath))) ;;;
       emit (EWrite
               (Posix.join
                  (Posix.join (Posix.join (templatePath self) path)
                     (Pathlib.with_suffix_empty_name filepath))
                  "index.html")
               (_platify htmltext ("_" +:+ Posix.basename path +:+ ".html")))
   end) w
  = match files w !! filepath with
    | None => (inl (FileNotFoundError filepath), [])
    | Some text =>
        match pandoc_convert text docType with
        | inl e => (inl e, [])
        | inr htmltext =>
            (inr tt,
             [EMkdir (Posix.join (Posix.join (templatePath self) path)
                        (Pathlib.with_suffix_empty_name filepath));
              EWrite
                (Posix.join
                   (Posix.join (Posix.join (templatePath self) path)
                      (Pathlib.with_suffix_empty_name filepath))
                   "index.html")
                (_platify htmltext ("_" +:+ Posix.basename path +:+ ".html"))])
        end
    end.
Proof.
  unfold bind at 1, read_file.
  destruct (files w !! filepath) as [text|]; [| reflexivity].
  cbn [replay fold_left].
  destruct (pandoc_convert text docType) as [e|html]; [reflexivity |].
  now rewrite bind_emit.
Qed.

(** Every file [renderDoc] writes is the page of a document the glob
    found, read when its turn came. *)
Lemma renderDoc_write_origin (docType path : string) (vb : bool) (w : World)
    (before after : list Event) (p c : string) :
  log_of (renderDoc self docType path true vb) w = before ++ EWrite p c :: after ->
  exists filepath,
    glob_match (Posix.join getcwd path) docType filepath = true /\
    document_page self (replay before w) path docType filepath p c.
Proof.
  unfold log_of. rewrite renderDoc_pretty_run.
  destruct (isfile _ w); [| destruct before; discriminate].
  intros Hlog.
  apply for_each_event in Hlog as (filepath & b1 & b2 & a2 & Hin & -> & Hround).
  unfold log_of in Hround. rewrite document_round_run in Hround.
  destruct (files (replay b1 w) !! filepath) as [text|] eqn:Hfile;
    [| destruct b2; discriminate].
  destruct (pandoc_convert text docType) as [e|html] eqn:Hconv;
    [destruct b2; discriminate |].
  cbn [snd] in Hround.
  destruct b2 as [|e1 [|e2 b2]]; [discriminate | | destruct b2; discriminate].
  injection Hround as He1 Hp Hc _. subst e1 p c.
  exists filepath. split; [now apply glob_match_of_glob in Hin |].
  exists text, html. rewrite replay_mkdir_files.
  split; [exact Hfile |]. split; [exact Hconv |]. split; [reflexivity |].
  apply platify_text.
Qed.

(** When [renderDoc] returns, every document the glob found has its
    page written. *)
Lemma renderDoc_writes_every_document (docType path : string) (vb : bool)
    (w : World) (filepath : string) :
  result (renderDoc self docType path true vb) w = inr tt ->
  In filepath (glob (Posix.join getcwd path) docType w) ->
  exists before after p c,
    log_of (renderDoc self docType path true vb) w = before ++ EWrite p c :: after /\
    document_page self (replay before w) path docType filepath p c.
Proof.
  unfold result, log_of. rewrite renderDoc_pretty_run.
  destruct (isfile _ w); [| discriminate].
  intros Hres Hin.
  destruct (for_each_round _ _ _ _ Hres Hin) as (before & after & Hlog & Hround).
  unfold result, log_of in *. rewrite document_round_run in *.
  destruct (files (replay before w) !! filepath) as [text|] eqn:Hfile;
    [| discriminate].
  destruct (pandoc_convert text docType) as [e|html] eqn:Hconv; [discriminate |].
  cbn [snd] in Hlog.
  eexists (before ++ [_]), after, _, _. split.
  - rewrite Hlog, <- app_assoc. reflexivity.
  - exists text, html. rewrite replay_mkdir_files.
    split; [exact Hfile |]. split; [exact Hconv |]. split; [reflexivity |].
    apply platify_text.
Qed.

Lemma document_stage_write_origin (pl : bool) (w : World)
    (before after : list Event) (p c : string) :
  log_of (document_stage self pl) w = before ++ EWrite p c :: after ->
  exists docdir docType filepath,
    In docdir (pandocDirs self) /\
    In docType (pandocTypes self) /\
    glob_match (Posix.join getcwd docdir) docType filepath = true /\
    document_page self (replay before w) docdir docType filepath p c.
Proof.
  unfold document_stage, renderDocs. intros Hlog.
  apply for_each_event in Hlog as (docType & b1 & b2 & a2 & Htype & -> & Hlog).
  apply for_each_event in Hlog as (docdir & b3 & b4 & a4 & Hdir & -> & Hlog).
  apply renderDoc_write_origin in Hlog as (filepath & Hglob & Hpage).
  exists docdir, docType, filepath.
  split; [exact Hdir |]. split; [exact Htype |]. split; [exact Hglob |].
  now rewrite !replay_app.
Qed.

Lemma document_stage_writes_every_document (pl : bool) (w : World)
    (docdir docType : string) :
  result (document_stage self pl) w = inr tt ->
  In docdir (pandocDirs self) ->
  In docType (pandocTypes self) ->
  exists reached rest,
    log_of (document_stage self pl) w = reached ++ rest /\
    forall filepath,
      In filepath (glob (Posix.join getcwd docdir) docType (replay reached w)) ->
      exists before after p c,
        log_of (document_stage self pl) w = before ++ EWrite p c :: after /\
        document_page self (replay before w) docdir docType filepath p c.
Proof.
  unfold document_stage, renderDocs. intros Hres Hdir Htype.
  destruct (for_each_round _ _ _ _ Hres Htype) as (b1 & a1 & Hlog1 & Hres1).
  destruct (for_each_round _ _ _ _ Hres1 Hdir) as (b2 & a2 & Hlog2 & Hres2).
  exists (b1 ++ b2), (log_of (renderDoc self docType docdir true true)
                        (replay b2 (replay b1 w)) ++ a2 ++ a1).
  split.
  { rewrite Hlog1, Hlog2. now rewrite <- !app_assoc. }
  intros filepath Hin. rewrite replay_app in Hin.
  destruct (renderDoc_writes_every_document _ _ _ _ _ Hres2 Hin)
    as (before & after & p & c & Hlog & Hpage).
  exists (b1 ++ b2 ++ before), (after ++ a2 ++ a1), p, c. split.
  - rewrite Hlog1, Hlog2, Hlog. now rewrite <- !app_assoc.
  - now rewrite !replay_app.
Qed.


(** A write of a full build is a write of its document stage. *)
Lemma render_write_is_document_write (pl : bool) (w : World)
    (before after : list Event) (p c : string) :
  log_of (render self pl) w = before ++ EWrite p c :: after ->
  exists before' after',
    before = EMkdir (buildDir self) :: before' /\
    log_of (document_stage self pl) (apply_event w (EMkdir (buildDir self)))
    = before' ++ EWrite p c :: after'.
Proof.
  unfold log_of. rewrite render_run. cbv zeta.
  generalize (apply_event w (EMkdir (buildDir self))). intros w0.
  pose proof (page_stage_events self) as Hpages.
  destruct (document_stage self pl w0) as [[e|[]] docs].
  - cbn [snd]. intros Hlog.
    destruct before as [|e0 before]; [discriminate |].
    injection Hlog as -> ->. now exists before, after.
  - specialize (Hpages (replay docs w0)). unfold emits, log_of in Hpages.
    assert (Hall : forall pages, Forall page_event pages ->
              EMkdir (buildDir self) :: docs ++ pages = before ++ EWrite p c :: after ->
              exists before' after',
                before = EMkdir (buildDir self) :: before' /\
                docs = before' ++ EWrite p c :: after').
    { intros pages Hp Hlog.
      destruct before as [|e0 before]; [discriminate |].
      injection Hlog as -> Hlog.
      rewrite Forall_forall in Hp.
      apply app_eq_app in Hlog as [l [[Hd Hrest] | [Hbefore Hrest]]].
      - destruct l as [|e' l].
        + simpl in Hrest.
          assert (Hin : EWrite p c ∈ pages) by (rewrite <- Hrest; left).
          destruct (Hp _ Hin).
        + injection Hrest as <- _. now exists before, l.
      - assert (Hin : EWrite p c ∈ pages).
        { rewrite Hrest. apply elem_of_app. right. left. }
        destruct (Hp _ Hin). }
    destruct (page_stage self (replay docs w0)) as [[e|[]] pages];
      cbn [snd]; now apply Hall.
Qed.

End DocumentPages.


(** [make] drops its [pandocTypes] argument: whatever types are asked
    for, every file a full build of the made site writes is the page of
    an [org] document of one of its document directories, found by the
    glob for [*.org], converted from [org] and written in the template
    tree. *)
Theorem made_site_converts_org_only `{Collaborators}
    (tp bd : string) (pd pt sd : list string) (enc : string) (vb pl : bool)
    (w : World) (before after : list Event) (p c : string) :
  log_of (render (make tp bd pd pt sd enc vb) pl) w = before ++ EWrite p c :: after ->
  exists docdir filepath,
    In docdir pd /\
    glob_match (Posix.join getcwd docdir) "org" filepath = true /\
    document_page (make tp bd pd pt sd enc vb) (replay before w)
                  docdir "org" filepath p c.
Proof.
  intros Hlog.
  apply render_write_is_document_write in Hlog as (before' & after' & -> & Hlog).
  apply document_stage_write_origin in Hlog
    as (docdir & docType & filepath & Hdir & [<- | []] & Hglob & Hpage).
  now exists docdir, filepath.
Qed.

Lemma made_site_converts_org_only_witness :
  log_of (@render Demo.collaborators
            (make "/site/templates" "/site/build" ["posts"] ["md"] [] "utf8" true)
            true) Demo.fresh
  = [EMkdir "/site/build"; EMkdir "/site/templates/posts/hello"]
    ++ EWrite "/site/templates/posts/hello/index.html"
              (_platify "<p>hi</p>" "_posts.html")
    :: [EDump "/site/build/index.html" "home";
        EMkdir "/site/build/posts/hello";
        EDump "/site/build/posts/hello/index.html"
              (_platify "<p>hi</p>" "_posts.html")] /\
  exists docdir filepath,
    In docdir ["posts"] /\
    glob_match (Posix.join (@getcwd Demo.collaborators) docdir) "org" filepath = true /\
    @document_page Demo.collaborators
       (make "/site/templates" "/site/build" ["posts"] ["md"] [] "utf8" true)
       (replay [EMkdir "/site/build"; EMkdir "/site/templates/posts/hello"] Demo.fresh)
       docdir "org" filepath
       "/site/templates/posts/hello/index.html"
       (_platify "<p>hi</p>" "_posts.html").
Proof.
  assert (Hlog :
    log_of (@render Demo.collaborators
              (make "/site/templates" "/site/build" ["posts"] ["md"] [] "utf8" true)
              true) Demo.fresh
    = [EMkdir "/site/build"; EMkdir "/site/templates/posts/hello"]
      ++ EWrite "/site/templates/posts/hello/index.html"
                (_platify "<p>hi</p>" "_posts.html")
      :: [EDump "/site/build/index.html" "home";
          EMkdir "/site/build/posts/hello";
          EDump "/site/build/posts/hello/index.html"
                (_platify "<p>hi</p>" "_posts.html")])
    by (vm_compute; reflexivity).
  split; [exact Hlog |].
  exact (@made_site_converts_org_only Demo.collaborators
           "/site/templates" "/site/build" ["posts"] ["md"] [] "utf8" true true
           Demo.fresh _ _ _ _ Hlog).
Defined.

(** ** A changed page *)

Section PageChange.

Context `{Collaborators}.
Variable site : GrashSite.

Lemma ensured_parent_page_change (actionType filename : string) :
  Forall (page_change_event site actionType filename) (ensured_parent site filename).
Proof.
  unfold ensured_parent. destruct (negb _); [| constructor].
  apply Forall_cons. split; [right; now left | constructor].
Qed.

(** The handler on a page, step by step: the template is looked up,
    then rendered. *)
Lemma page_change_run (filename : string) (w : World) :
  isTemplate site filename = true ->
  lift (templates <- getDependencies site filename ;;
        renderTemplates_dependencies site templates) w
  = if isfile (loader_path (templatePath site) filename) w
    then
      (match snd (jinja_stream (templatePath site)
                    (tree (templatePath site) (files w)) filename) with
       | Some e => inl (Propagated e)
       | None => inr tt
       end,
       ensured_parent site filename
       ++ [EDump (Posix.join (buildDir site) filename)
                 (fst (jinja_stream (templatePath site)
                         (tree (templatePath site) (files w)) filename))])
    else (inl (Propagated (TemplateNotFound filename)), []).
Proof.
  intros Hpage.
  assert (Hmodule : isModule filename = false).
  { unfold isTemplate in Hpage. now destruct (isModule filename). }
  assert (Hdeps : getDependencies site filename w
                  = if isfile (loader_path (templatePath site) filename) w
                    then (inr (DepTemplates (ret [ret {| template_name := filename |}])),
                          [])
                    else (inl (TemplateNotFound filename), [])).
  { unfold getDependencies. rewrite Hmodule, Hpage.
    unfold bind. rewrite getTemplate_run. now destruct (isfile _ w). }
  unfold lift. destruct (isfile _ w).
  - rewrite (bind_inr _ _ _ _ _ Hdeps).
    cbn [replay fold_left renderTemplates_dependencies app].
    unfold renderTemplates. rewrite bind_ret. cbn [for_each].
    assert (Hitem : bind (ret {| template_name := filename |}) (renderTemplate site) w
                    = renderTemplate site {| template_name := filename |} w)
      by apply bind_ret.
    rewrite (renderTemplate_run site) in Hitem. cbn [template_name] in Hitem.
    cbv zeta in Hitem.
    destruct (snd (jinja_stream (templatePath site)
                     (tree (templatePath site) (files w)) filename)) as [e|].
    + rewrite (bind_inl _ _ _ _ _ Hitem). reflexivity.
    + rewrite (bind_inr _ _ _ _ _ Hitem). cbn [fst snd ret]. now rewrite app_nil_r.
  - rewrite (bind_inl _ _ _ _ _ Hdeps). reflexivity.
Qed.

(** A handled change to a page touches that page only: whatever
    happens, the handler's events are the announcement, the creation of
    the page's parent directory below the output root and a dump to
    [buildDir/<filename>].  When the handler returns, the engine ended
    without an exception, the events are exactly these three kinds in
    this order, with the engine's text for the page on the template tree
    as it was, and the page's file below the output root holds that
    text. *)
Theorem watcher_page_change (actionType source filename : string) (w : World) :
  OsPath.relpath source (templatePath site) = Some filename ->
  isHandled site actionType source w = true ->
  isTemplate site filename = true ->
  Forall (page_change_event site actionType filename)
         (snd (actionHandler site actionType source true w)) /\
  (fst (actionHandler site actionType source true w) = inr tt ->
   snd (jinja_stream (templatePath site) (tree (templatePath site) (files w)) filename)
   = None /\
   snd (actionHandler site actionType source true w)
   = EPrint (actionType +:+ " " +:+ filename)
     :: ensured_parent site filename
     ++ [EDump (Posix.join (buildDir site) filename)
               (fst (jinja_stream (templatePath site)
                       (tree (templatePath site) (files w)) filename))] /\
   files (replay (snd (actionHandler site actionType source true w)) w)
     !! Posix.join (buildDir site) filename
   = Some (fst (jinja_stream (templatePath site)
                  (tree (templatePath site) (files w)) filename))).
Proof.
  intros Hrel Hhandled Hpage.
  rewrite (actionHandler_handled site _ _ _ _ Hrel Hhandled).
  assert (Hstatic : isStatic site filename = false).
  { unfold isTemplate in Hpage.
    destruct (isStatic site filename); [| reflexivity].
    now rewrite !orb_true_r in Hpage. }
  assert (Hpandoc : isPandoc site filename = false).
  { unfold isTemplate in Hpage.
    destruct (isPandoc site filename); [| reflexivity].
    now rewrite !orb_true_r in Hpage. }
  rewrite Hstatic, Hpandoc, (page_change_run filename w Hpage).
  destruct (isfile _ w); cbn [fst snd].
  - split.
    + apply Forall_cons. split; [now left |]. apply Forall_app.
      split; [apply ensured_parent_page_change |].
      apply Forall_cons. split; [right; right; eauto | constructor].
    + destruct (snd (jinja_stream _ _ filename)); [discriminate |].
      intros _. split; [reflexivity |]. split; [reflexivity |].
      change (EPrint (actionType +:+ " " +:+ filename)
              :: ensured_parent site filename ++ [EDump ?p ?c])
        with ((EPrint (actionType +:+ " " +:+ filename)
               :: ensured_parent site filename) ++ [EDump p c]).
      rewrite replay_app. simpl. apply lookup_insert_eq.
  - split; [apply Forall_cons; split; [now left | constructor] | discriminate].
Qed.

End PageChange.

Lemma watcher_page_change_witness :
  @OsPath.relpath Demo.collaborators "/site/templates/blog/first.html"
     (templatePath Demo2.site) = Some "blog/first.html" /\
  isHandled Demo2.site "modified" "/site/templates/blog/first.html" Demo2.world = true /\
  isTemplate Demo2.site "blog/first.html" = true /\
  fst (@actionHandler Demo.collaborators Demo2.site "modified"
         "/site/templates/blog/first.html" true Demo2.world) = inr tt /\
  snd (@actionHandler Demo.collaborators Demo2.site "modified"
         "/site/templates/blog/first.html" true Demo2.world)
  = EPrint ("modified" +:+ " " +:+ "blog/first.html")
    :: ensured_parent Demo2.site "blog/first.html"
    ++ [EDump (Posix.join (buildDir Demo2.site) "blog/first.html")
              (fst (@jinja_stream Demo.collaborators (templatePath Demo2.site)
                      (tree (templatePath Demo2.site) (files Demo2.world))
                      "blog/first.html"))].
Proof.
  assert (Hrel : @OsPath.relpath Demo.collaborators "/site/templates/blog/first.html"
                   (templatePath Demo2.site) = Some "blog/first.html")
    by (vm_compute; reflexivity).
  assert (Hhandled : isHandled Demo2.site "modified"
                       "/site/templates/blog/first.html" Demo2.world = true)
    by (vm_compute; reflexivity).
  assert (Hpage : isTemplate Demo2.site "blog/first.html" = true)
    by (vm_compute; reflexivity).
  assert (Hreturns : fst (@actionHandler Demo.collaborators Demo2.site "modified"
                            "/site/templates/blog/first.html" true Demo2.world)
                     = inr tt)
    by (vm_compute; reflexivity).
  split; [exact Hrel |]. split; [exact Hhandled |]. split; [exact Hpage |].
  split; [exact Hreturns |].
  exact (proj1 (proj2 (proj2 (@watcher_page_change Demo.collaborators Demo2.site
                                "modified" "/site/templates/blog/first.html"
                                "blog/first.html" Demo2.world Hrel Hhandled Hpage)
                             Hreturns))).
Defined.

(** The events of that change, written out. *)
Example page_change_of_a_post :
  @actionHandler Demo.collaborators Demo2.site "modified"
     "/site/templates/blog/first.html" true Demo2.world
  = (inr tt,
     [EPrint "modified blog/first.html";
      EMkdir "/site/build/blog";
      EDump "/site/build/blog/first.html" "post"]).
Proof. vm_compute. reflexivity. Qed.

(** ** Building twice, with the roots apart *)

(** Two prefixes of one string are prefixes of one another. *)
Lemma startswith_comparable (p a b : string) :
  Str.startswith p a = true -> Str.startswith p b = true ->
  Str.startswith a b = true \/ Str.startswith b a = true.
Proof.
  revert p b. induction a as [|x a IH]; intros p b Ha Hb; [now right |].
  destruct b as [|y b]; [now left |].
  destruct p as [|c p]; [discriminate |].
  simpl in Ha, Hb.
  apply andb_prop in Ha as [Hx Ha]. apply andb_prop in Hb as [Hy Hb].
  apply Ascii.eqb_eq in Hx, Hy. subst x y.
  simpl. rewrite Ascii.eqb_refl. simpl. now apply (IH p).
Qed.

Lemma apart_under (a b p : string) :
  apart a b = true -> is_under a p = true -> is_under b p = false.
Proof.
  unfold apart, is_under. intros Hab Ha.
  apply andb_prop in Hab as [Hab Hba].
  apply negb_true_iff in Hab, Hba.
  destruct (Str.startswith p (Posix.join b "")) eqn:Hb; [| reflexivity].
  destruct (startswith_comparable _ _ _ Ha Hb); congruence.
Qed.

Lemma apart_sym (a b : string) : apart a b = apart b a.
Proof. unfold apart. apply andb_comm. Qed.

Lemma contains_append (c : ascii) (a b : string) :
  Str.contains c (a +:+ b) = Str.contains c a || Str.contains c b.
Proof.
  induction a as [|x a IH]; [reflexivity |].
  simpl. now rewrite IH, orb_assoc.
Qed.

(** The last component of a path joined with a plain name is the name. *)
Lemma basename_join (a n : string) :
  Str.contains "/" n = false -> Posix.basename (Posix.join a n) = n.
Proof.
  intros Hn. unfold Posix.join.
  rewrite (relative_of_plain n "" Hn).
  destruct (String.eqb a "") eqn:Hempty.
  - apply String.eqb_eq in Hempty as ->. cbn [orb String.append].
    unfold Posix.basename. now rewrite (rsplit_sep_plain n Hn).
  - cbn [orb]. destruct (Str.endswith a "/") eqn:Hends.
    + apply endswith_spec in Hends as [a' ->]. now apply basename_after_sep.
    + rewrite <- append_assoc. now apply basename_after_sep.
Qed.

Lemma module_template_plain (d : string) :
  Str.contains "/" ("_" +:+ Posix.basename d +:+ ".html") = false.
Proof.
  change ("_" +:+ Posix.basename d +:+ ".html")
    with (String "_" (Posix.basename d +:+ ".html")).
  simpl. rewrite contains_append, basename_no_sep. reflexivity.
Qed.

Lemma pretty_destination_not_module (self : GrashSite) (d f d' : string) :
  pretty_destination self d f
  <> Posix.join (templatePath self) ("_" +:+ Posix.basename d' +:+ ".html").
Proof.
  intros Heq. apply (f_equal Posix.basename) in Heq.
  unfold pretty_destination in Heq.
  rewrite (basename_join _ "index.html" eq_refl) in Heq.
  rewrite (basename_join _ _ (module_template_plain d')) in Heq.
  discriminate Heq.
Qed.

(** Relative paths, put together. *)
Lemma relative_append (a b : string) :
  relative a -> relative b -> relative (a +:+ b).
Proof. unfold relative. destruct a as [|x a]; [now intros _ | now intros Ha _]. Qed.

Lemma relative_append_nonempty (a b : string) :
  a <> "" -> relative a -> relative (a +:+ b).
Proof. unfold relative. destruct a as [|x a]; [congruence | now intros _ Ha]. Qed.

Lemma endswith_sep_append (a : string) : Str.endswith (a +:+ "/") "/" = true.
Proof. now apply endswith_append. Qed.

(** Below a directory prefix, a path made complete by a separator stays
    below it, and what follows the prefix stays relative. *)
Lemma join_empty_after (X s : string) :
  X = "" \/ (exists a, X = a +:+ "/") ->
  relative s ->
  exists s', Posix.join (X +:+ s) "" = X +:+ s' /\ relative s'.
Proof.
  intros HX Hs. unfold Posix.join.
  change (Str.startswith "" "/") with false. cbv iota.
  destruct (String.eqb (X +:+ s) "" || Str.endswith (X +:+ s) "/") eqn:Hcase.
  - exists s. now rewrite append_empty_r.
  - exists (s +:+ "/"). split; [now rewrite append_assoc |].
    apply relative_append_nonempty; [| exact Hs].
    intros ->. rewrite append_empty_r in Hcase.
    destruct HX as [-> | [a ->]]; [discriminate |].
    now rewrite endswith_sep_append, orb_true_r in Hcase.
Qed.

(** The name the loader gives the page of a document is relative. *)
Lemma pretty_destination_name_relative (self : GrashSite) (d f : string) :
  relative d ->
  relative (loader_name (templatePath self) (pretty_destination self d f)).
Proof.
  intros Hd. unfold loader_name, pretty_destination.
  pose proof (join_empty_shape (templatePath self)) as HX.
  rewrite (join_relative (templatePath self) d Hd).
  set (X := Posix.join (templatePath self) "") in *.
  rewrite (join_relative _ _ (with_suffix_empty_name_relative f)).
  destruct (join_empty_after X d HX Hd) as (d' & -> & Hd').
  rewrite append_assoc.
  rewrite (join_relative _ "index.html" eq_refl).
  destruct (join_empty_after X (d' +:+ Pathlib.with_suffix_empty_name f) HX)
    as (z & -> & Hz).
  { apply relative_append; [exact Hd' | apply with_suffix_empty_name_relative]. }
  rewrite append_assoc, drop_append.
  apply relative_append; [exact Hz | reflexivity].
Qed.

(** *** Worlds that agree on what is read *)

Section Restriction.

Variable P : string -> bool.

Lemma restrict_apply_event (w w' : World) (e : Event) :
  restrict P (files w) = restrict P (files w') ->
  restrict P (files (apply_event w e)) = restrict P (files (apply_event w' e)).
Proof.
  unfold restrict. intros Heq.
  destruct e; simpl; try exact Heq;
    rewrite !map_filter_insert, !map_filter_delete, Heq; reflexivity.
Qed.

Lemma restrict_replay (log : list Event) (w w' : World) :
  restrict P (files w) = restrict P (files w') ->
  restrict P (files (replay log w)) = restrict P (files (replay log w')).
Proof.
  revert w w'. induction log as [|e log IH]; intros w w' Heq; [exact Heq |].
  simpl. now apply IH, restrict_apply_event.
Qed.

Lemma restrict_replay_outside (log : list Event) (w : World) :
  Forall (writes_outside P) log ->
  restrict P (files (replay log w)) = restrict P (files w).
Proof.
  revert w. induction log as [|e log IH]; intros w Hlog; [reflexivity |].
  apply Forall_cons in Hlog as [He Hlog]. simpl. rewrite (IH _ Hlog).
  unfold restrict, writes_outside in *.
  destruct e; simpl in *; try reflexivity;
    apply map_filter_insert_not; intros y; simpl;
    rewrite (He _ eq_refl); discriminate.
Qed.

Lemma lookup_restrict (fs : gmap string string) (path : string) :
  P path = true -> fs !! path = restrict P fs !! path.
Proof.
  intros Hp. unfold restrict. rewrite map_lookup_filter.
  destruct (fs !! path); simpl; [| reflexivity].
  now rewrite option_guard_True.
Qed.

Lemma restrict_narrow (Q : string -> bool) (fs : gmap string string) :
  (forall path, Q path = true -> P path = true) ->
  restrict Q fs = restrict Q (restrict P fs).
Proof.
  intros HQ. unfold restrict. symmetry.
  apply map_filter_filter_l. intros k v _ Hk. now apply HQ.
Qed.

Lemma reads_only_ret {A} (a : A) : reads_only P (ret a).
Proof. now intros w w' _. Qed.

Lemma reads_only_raise {A} (e : Exn) : reads_only P (@raise A e).
Proof. now intros w w' _. Qed.

Lemma reads_only_emit (e : Event) : reads_only P (emit e).
Proof. now intros w w' _. Qed.

Lemma reads_only_gets {A} (g : World -> A) :
  (forall w w', restrict P (files w) = restrict P (files w') -> g w = g w') ->
  reads_only P (gets g).
Proof. intros Hg w w' Heq. unfold gets. now rewrite (Hg w w' Heq). Qed.

Lemma reads_only_bind {A B} (m : M A) (f : A -> M B) :
  reads_only P m ->
  (forall w a, result m w = inr a -> reads_only P (f a)) ->
  reads_only P (bind m f).
Proof.
  intros Hm Hf w w' Heq. unfold bind.
  pose proof (Hm w w' Heq) as Hmw. pose proof (Hf w) as Hfw.
  unfold result in Hfw. rewrite <- Hmw.
  destruct (m w) as [[e|a] log]; [reflexivity |].
  now rewrite (Hfw a eq_refl (replay log w) (replay log w')
                 (restrict_replay log w w' Heq)).
Qed.

Lemma reads_only_for_each {A} (xs : list A) (body : A -> M unit) :
  (forall x, In x xs -> reads_only P (body x)) ->
  reads_only P (for_each xs body).
Proof.
  induction xs as [|x xs IH]; intros Hbody; simpl.
  - apply reads_only_ret.
  - apply reads_only_bind; [apply Hbody; now left |].
    intros _ _ _. apply IH. intros y Hy. apply Hbody. now right.
Qed.

Lemma reads_only_isfile (path : string) :
  P path = true -> reads_only P (gets (isfile path)).
Proof.
  intros Hp. apply reads_only_gets. intros w w' Heq.
  unfold isfile.
  now rewrite (lookup_restrict (files w) _ Hp), (lookup_restrict (files w') _ Hp), Heq.
Qed.

Lemma reads_only_read_file (path : string) :
  P path = true -> reads_only P (read_file path).
Proof.
  intros Hp w w' Heq. unfold read_file.
  now rewrite (lookup_restrict (files w) _ Hp), (lookup_restrict (files w') _ Hp), Heq.
Qed.

Lemma reads_only_glob (source docType : string) :
  (forall path, is_under source path = true -> P path = true) ->
  reads_only P (gets (glob source docType)).
Proof.
  intros Hsource. apply reads_only_gets. intros w w' Heq. unfold glob.
  change (filter (fun kv : string * string => glob_match source docType kv.1 = true)
                 (files w))
    with (restrict (glob_match source docType) (files w)).
  change (filter (fun kv : string * string => glob_match source docType kv.1 = true)
                 (files w'))
    with (restrict (glob_match source docType) (files w')).
  assert (HQ : forall path, glob_match source docType path = true -> P path = true).
  { intros path Hm. apply Hsource. unfold glob_match in Hm.
    now apply andb_prop in Hm as [Hu _]. }
  now rewrite (restrict_narrow _ (files w) HQ), (restrict_narrow _ (files w') HQ), Heq.
Qed.

End Restriction.

(** What a log wrote, looked up afterwards: a file of the world the log
    leaves was there before or was written by an event of the log. *)
Lemma replay_lookup_origin (log : list Event) (w : World) (k v : string) :
  files (replay log w) !! k = Some v ->
  files w !! k = Some v \/ exists e, In e log /\ written_path e = Some k.
Proof.
  revert w. induction log as [|e log IH]; intros w Hk; [now left |].
  simpl in Hk. destruct (IH _ Hk) as [Hw | (e' & Hin & He')].
  - destruct e; simpl in Hw; try (now left);
      (destruct (decide (k = path)) as [-> | Hne] ||
       destruct (decide (k = destination)) as [-> | Hne]);
      try (right; eexists; split; [now left | reflexivity]);
      rewrite lookup_insert_ne in Hw by congruence; now left.
  - right. exists e'. split; [now right | exact He'].
Qed.

(** The names the loader lists after a log: those it listed before and
    those of the files the log wrote. *)
Lemma list_templates_origin (root : string) (f : string -> bool)
    (log : list Event) (w : World) (name : string) :
  In name (list_templates root f (replay log w)) ->
  In name (list_templates root f w) \/
  exists e p, In e log /\ written_path e = Some p /\ name = loader_name root p.
Proof.
  unfold list_templates. intros Hin.
  apply filter_In in Hin as [Hin Hf].
  apply in_map_iff in Hin as (path & <- & Hpath).
  apply list_elem_of_In, list_elem_of_fmap in Hpath as ([k v] & -> & Hkv).
  apply elem_of_map_to_list, map_lookup_filter_Some in Hkv as [Hk Hunder].
  simpl in *.
  destruct (replay_lookup_origin _ _ _ _ Hk) as [Hw | (e & He & Hp)].
  - left. apply filter_In. split; [| exact Hf].
    apply in_map_iff. exists k. split; [reflexivity |].
    apply list_elem_of_In, list_elem_of_fmap. exists (k, v). split; [reflexivity |].
    apply elem_of_map_to_list, map_lookup_filter_Some. now split.
  - right. now exists e, k.
Qed.

Section BuildingTwice.

Context `{Collaborators}.
Variable self : GrashSite.

(** *** What the stages read *)

Lemma document_source_directory (d path : string) :
  In d (pandocDirs self) ->
  is_under (Posix.join getcwd d) path = true ->
  document_source self path = true.
Proof.
  intros Hd Hp. unfold document_source. apply existsb_exists.
  exists d. split; [exact Hd |]. now rewrite Hp.
Qed.

Lemma document_source_module (d : string) :
  In d (pandocDirs self) ->
  document_source self
    (Posix.join (templatePath self) ("_" +:+ Posix.basename d +:+ ".html")) = true.
Proof.
  intros Hd. unfold document_source. apply existsb_exists.
  exists d. split; [exact Hd |]. rewrite String.eqb_refl. apply orb_true_r.
Qed.

Lemma reads_only_renderDoc (docType path : string) (pl vb : bool) :
  In path (pandocDirs self) ->
  reads_only (document_source self) (renderDoc self docType path pl vb).
Proof.
  intros Hpath. unfold renderDoc.
  apply reads_only_bind.
  { apply reads_only_glob. intros p. now apply document_source_directory. }
  intros w docfilepaths Hglob. injection Hglob as <-.
  apply reads_only_bind.
  { apply reads_only_isfile. now apply document_source_module. }
  intros _ found _.
  destruct (negb found); [apply reads_only_raise |].
  apply reads_only_for_each. intros filepath Hfile.
  apply glob_match_of_glob in Hfile.
  assert (Hunder : is_under (Posix.join getcwd path) filepath = true).
  { unfold glob_match in Hfile. now apply andb_prop in Hfile as [Hu _]. }
  apply reads_only_bind.
  { apply reads_only_read_file. now apply (document_source_directory path). }
  intros _ text _.
  destruct (pandoc_convert text docType); [apply reads_only_raise |].
  destruct pl.
  - apply reads_only_bind; [apply reads_only_emit | intros _ _ _; apply reads_only_emit].
  - apply reads_only_emit.
Qed.

(** The document stage reads the document directories and their module
    templates, and nothing else. *)
Lemma reads_only_document_stage (pl : bool) :
  reads_only (document_source self) (document_stage self pl).
Proof.
  unfold document_stage, renderDocs.
  apply reads_only_for_each. intros docType _.
  apply reads_only_for_each. intros path Hpath.
  now apply reads_only_renderDoc.
Qed.

Lemma reads_only_list_templates (filter_func : string -> bool) :
  reads_only (is_under (templatePath self))
    (gets (list_templates (templatePath self) filter_func)).
Proof.
  apply reads_only_gets. intros w w' Heq. unfold list_templates.
  change (tree (templatePath self) (files w))
    with (restrict (is_under (templatePath self)) (files w)).
  change (tree (templatePath self) (files w'))
    with (restrict (is_under (templatePath self)) (files w')).
  now rewrite Heq.
Qed.

Lemma reads_only_renderTemplate (template : Template) :
  reads_only (is_under (templatePath self)) (renderTemplate self template).
Proof.
  unfold renderTemplate.
  apply reads_only_bind.
  { unfold _ensureParent. destruct (negb _);
      [apply reads_only_emit | apply reads_only_ret]. }
  intros _ _ _. apply reads_only_bind.
  - apply reads_only_gets. intros w w' Heq.
    change (tree (templatePath self) (files w))
      with (restrict (is_under (templatePath self)) (files w)).
    change (tree (templatePath self) (files w'))
      with (restrict (is_under (templatePath self)) (files w')).
    now rewrite Heq.
  - intros _ out _.
    apply reads_only_bind; [apply reads_only_emit | intros _ _ _].
    destruct (snd out); [apply reads_only_raise | apply reads_only_ret].
Qed.

Lemma reads_only_getTemplate (name : string) :
  reads_only (is_under (templatePath self)) (getTemplate self name).
Proof.
  unfold getTemplate. apply reads_only_bind.
  - apply reads_only_isfile. unfold is_under, loader_path. apply startswith_append.
  - intros _ found _. destruct found; [apply reads_only_ret | apply reads_only_raise].
Qed.

(** The page stage and the static stage read the template tree, and
    nothing else. *)
Lemma reads_only_page_stage :
  reads_only (is_under (templatePath self)) (page_stage self).
Proof.
  unfold page_stage, renderTemplates, templates, templateNames.
  apply reads_only_bind.
  - apply reads_only_bind; [apply reads_only_list_templates |].
    intros _ names _. apply reads_only_ret.
  - intros w items Hitems.
    unfold result in Hitems. rewrite bind_gets in Hitems.
    injection Hitems as <-.
    apply reads_only_for_each. intros item Hitem.
    apply in_map_iff in Hitem as (name & <- & _).
    apply reads_only_bind; [apply reads_only_getTemplate |].
    intros _ template _. apply reads_only_renderTemplate.
Qed.

Lemma reads_only_static_stage :
  reads_only (is_under (templatePath self)) (static_stage self).
Proof.
  unfold static_stage, staticFiles, copyStatic.
  apply reads_only_bind; [apply reads_only_list_templates | intros _ paths _].
  apply reads_only_for_each. intros path _.
  apply reads_only_bind; [apply reads_only_raise |].
  intros w base Hbase. discriminate Hbase.
Qed.

(** *** Where the stages write *)

Section Apart.

Hypothesis roots_apart : apart (buildDir self) (templatePath self) = true.
Hypothesis documents_apart :
  Forall (fun d =>
            relative d /\
            apart (Posix.join getcwd d) (buildDir self) = true /\
            apart (Posix.join getcwd d) (templatePath self) = true)
         (pandocDirs self).

Lemma documents_relative : Forall relative (pandocDirs self).
Proof.
  eapply Forall_impl; [exact documents_apart |]. now intros d [Hd _].
Qed.

Lemma template_tree_not_source (p : string) :
  is_under (templatePath self) p = true ->
  (forall d, In d (pandocDirs self) ->
     p <> Posix.join (templatePath self) ("_" +:+ Posix.basename d +:+ ".html")) ->
  document_source self p = false.
Proof.
  intros Hp Hmodule. unfold document_source.
  destruct (existsb _ _) eqn:Hex; [| reflexivity].
  apply existsb_exists in Hex as (d & Hd & Hcase).
  pose proof documents_apart as Hall. rewrite Forall_forall in Hall.
  destruct (Hall d (proj2 (list_elem_of_In _ _) Hd)) as (_ & _ & Hapart).
  rewrite apart_sym in Hapart.
  rewrite (apart_under _ _ _ Hapart Hp) in Hcase. simpl in Hcase.
  apply String.eqb_eq in Hcase. now destruct (Hmodule d Hd).
Qed.

(** What is written below the output root is neither in the template
    tree nor read by the document stage. *)
Lemma below_output_outside (p : string) :
  is_under (buildDir self) p = true ->
  is_under (templatePath self) p = false /\ document_source self p = false.
Proof.
  intros Hp.
  pose proof (apart_under _ _ _ roots_apart Hp) as Htp.
  split; [exact Htp |]. unfold document_source.
  destruct (existsb _ _) eqn:Hex; [| reflexivity].
  apply existsb_exists in Hex as (d & Hd & Hcase).
  pose proof documents_apart as Hall. rewrite Forall_forall in Hall.
  destruct (Hall d (proj2 (list_elem_of_In _ _) Hd)) as (_ & Hapart & _).
  rewrite apart_sym in Hapart.
  rewrite (apart_under _ _ _ Hapart Hp) in Hcase. simpl in Hcase.
  apply String.eqb_eq in Hcase. subst p.
  rewrite is_under_join in Htp; [discriminate | reflexivity].
Qed.

(** The document stage writes pages into the template tree, under
    relative names, and never a file it reads. *)
Lemma document_stage_footprint (pl : bool) (w : World) :
  Forall (fun e =>
            writes_outside (document_source self) e /\
            forall p, written_path e = Some p ->
                      relative (loader_name (templatePath self) p))
         (log_of (document_stage self pl) w).
Proof.
  pose proof (document_stage_document_writes self pl w documents_relative) as Hwrites.
  pose proof (document_stage_events self pl w) as Hevents.
  unfold emits in *. rewrite Forall_forall in *.
  intros e He. specialize (Hwrites e He). specialize (Hevents e He).
  destruct e; simpl in Hevents; try contradiction.
  - split; [intros p [=] | intros p [=]].
  - simpl in Hwrites.
    destruct Hwrites as (docdir & docType & filepath & Hdir & _ & _ & -> & Hunder).
    pose proof documents_relative as Hrel. rewrite Forall_forall in Hrel.
    specialize (Hrel docdir (proj2 (list_elem_of_In _ _) Hdir)).
    split; intros p [= <-].
    + apply template_tree_not_source; [exact Hunder |].
      intros d _. apply pretty_destination_not_module.
    + now apply pretty_destination_name_relative.
Qed.

(** With relative template names the page stage writes below the
    output root. *)
Lemma page_stage_below (w : World) :
  Forall relative (list_templates (templatePath self) (isTemplate self) w) ->
  Forall (fun e => forall p, written_path e = Some p ->
                   is_under (buildDir self) p = true)
         (log_of (page_stage self) w).
Proof.
  intros Hrel.
  pose proof (page_items_dump self
                (list_templates (templatePath self) (isTemplate self) w)
                (list_templates (templatePath self) (isTemplate self) w) w
                (fun _ Hn => Hn)) as Hall.
  unfold emits, log_of in *. rewrite <- page_stage_run in Hall.
  rewrite Forall_forall in Hall. rewrite Forall_forall in Hrel.
  apply Forall_forall. intros e He. specialize (Hall e He).
  destruct e; simpl in *; try discriminate; try contradiction.
  destruct Hall as (name & Hname & ->). intros p [= <-].
  apply is_under_join. exact (Hrel name (proj2 (list_elem_of_In _ _) Hname)).
Qed.

End Apart.


End BuildingTwice.


